(** * python_api_project.py: fetch, transform, analyse

    A shallow embedding of [src/python_api_project.py].  The script asks the
    GitHub search API for the most starred Python repositories
    ([fetch_github_data]), turns the answer into a pandas [DataFrame]
    ([process_data]), derives a summary ([analyze_data]) and reports it
    ([main], [create_visualizations]).

    Python values are embedded as follows.
    - The objects that [json.loads] builds are the inductive [json]; a [dict]
      is an association list read at its first matching key.
    - A [str] is a [string] whose characters are the code points below 256.
    - An exception is a value of [exn]; code that can raise returns a
      [result].
    - A [DataFrame] is columnar, as in pandas: an index and named [Series];
      an [int64] column holds 64-bit integers whose reductions wrap around,
      [float64] results are IEEE-754 doubles ([PrimFloat.float]).
    - The network, the clock and the terminal are a [World] threaded through
      the effectful functions. *)

From Stdlib Require Import ZArith String Ascii List Bool Lia.
From Stdlib Require Import DecimalString Sorted Permutation Floats Uint63.
Import ListNotations.

#[local] Set Warnings "-register-all".
Local Open Scope string_scope.
Local Open Scope list_scope.
Local Open Scope Z_scope.

(** ** Exceptions and results *)

(** The exceptions the script can raise.  [Exception_] is the built-in
    [Exception] with its message; [KeyError] carries the missing key. *)
Inductive exn : Type :=
| Exception_ (msg : string)
| KeyError (key : string)
| TypeError
| ValueError
| JSONDecodeError
| ConnectionError.

(** Outcome of a call: a value, a raised exception, or [Unmodelled] where
    pandas works on a column dtype this development does not describe. *)
Inductive result (A : Type) : Type :=
| Ok (a : A)
| Raise (e : exn)
| Unmodelled.

Arguments Ok {A} a.
Arguments Raise {A} e.
Arguments Unmodelled {A}.

Definition bind {A B} (m : result A) (k : A -> result B) : result B :=
  match m with
  | Ok a => k a
  | Raise e => Raise e
  | Unmodelled => Unmodelled
  end.

Notation "x <- m ;; k" := (bind m (fun x => k))
  (at level 61, m at next level, right associativity).

(** The body of a [for] loop that appends one value per element: the first
    element whose conversion raises ends the loop. *)
Fixpoint for_each {A B} (f : A -> result B) (xs : list A) : result (list B) :=
  match xs with
  | [] => Ok []
  | x :: xs' =>
      y <- f x ;;
      ys <- for_each f xs' ;;
      Ok (y :: ys)
  end.

(** ** JSON objects *)

Inductive json : Type :=
| JNull
| JBool (b : bool)
| JInt (z : Z)
| JFloat (f : float)
| JStr (s : string)
| JList (l : list json)
| JDict (d : list (string * json)).

Fixpoint lookup {V} (k : string) (d : list (string * V)) : option V :=
  match d with
  | [] => None
  | (k', v) :: d' => if String.eqb k k' then Some v else lookup k d'
  end.

(** [o[k]] for a string key [k]: only a [dict] can be subscripted by a
    string; a missing key raises [KeyError]. *)
Definition getitem (o : json) (k : string) : result json :=
  match o with
  | JDict d =>
      match lookup k d with
      | Some v => Ok v
      | None => Raise (KeyError k)
      end
  | _ => Raise TypeError
  end.

(** [iter(o)]: the elements of a list, the keys of a dict, the characters of
    a string; any other object is not iterable. *)
Definition iter (o : json) : result (list json) :=
  match o with
  | JList l => Ok l
  | JDict d => Ok (map (fun kv => JStr (fst kv)) d)
  | JStr s => Ok (map (fun c => JStr (String c EmptyString)) (list_ascii_of_string s))
  | _ => Raise TypeError
  end.

(** ** [datetime.strptime(s, '%Y-%m-%dT%H:%M:%SZ').year] *)

Module Strptime.

Definition is_digit (c : ascii) : bool :=
  let n := nat_of_ascii c in (48 <=? n)%nat && (n <=? 57)%nat.

Definition between (lo hi c : ascii) : bool :=
  (nat_of_ascii lo <=? nat_of_ascii c)%nat && (nat_of_ascii c <=? nat_of_ascii hi)%nat.

Definition digit (c : ascii) : Z := Z.of_nat (nat_of_ascii c) - 48.

(** A directive yields its candidate parses in the order in which the
    alternatives of its regular expression are tried. *)
Definition parser := list ascii -> list (Z * list ascii).

Definition two (p1 p2 : ascii -> bool) : parser := fun s =>
  match s with
  | c1 :: c2 :: r => if p1 c1 && p2 c2 then [(10 * digit c1 + digit c2, r)] else []
  | _ => []
  end.

Definition one (p : ascii -> bool) : parser := fun s =>
  match s with
  | c :: r => if p c then [(digit c, r)] else []
  | _ => []
  end.

Definition alt (p q : parser) : parser := fun s => p s ++ q s.

Definition chr (c : ascii) : ascii -> bool := Ascii.eqb c.

(** [%Y]: [\d\d\d\d]. *)
Definition dir_Y : parser := fun s =>
  match s with
  | a :: b :: c :: d :: r =>
      if is_digit a && is_digit b && is_digit c && is_digit d
      then [(1000 * digit a + 100 * digit b + 10 * digit c + digit d, r)]
      else []
  | _ => []
  end.

(** [%m]: [1[0-2]|0[1-9]|[1-9]]. *)
Definition dir_m : parser :=
  alt (two (chr "1") (between "0" "2"))
    (alt (two (chr "0") (between "1" "9")) (one (between "1" "9"))).

(** [%d]: [3[0-1]|[1-2]\d|0[1-9]|[1-9]| [1-9]]; [int] ignores the blank of
    the last alternative. *)
Definition dir_d : parser :=
  alt (two (chr "3") (between "0" "1"))
    (alt (two (between "1" "2") is_digit)
       (alt (two (chr "0") (between "1" "9"))
          (alt (one (between "1" "9"))
             (fun s => match s with
                       | c1 :: c2 :: r =>
                           if chr " " c1 && between "1" "9" c2 then [(digit c2, r)] else []
                       | _ => []
                       end)))).

(** [%H]: [2[0-3]|[0-1]\d|\d]. *)
Definition dir_H : parser :=
  alt (two (chr "2") (between "0" "3"))
    (alt (two (between "0" "1") is_digit) (one is_digit)).

(** [%M]: [[0-5]\d|\d]. *)
Definition dir_M : parser :=
  alt (two (between "0" "5") is_digit) (one is_digit).

(** [%S]: [6[0-1]|[0-5]\d|\d]. *)
Definition dir_S : parser :=
  alt (two (chr "6") (between "0" "1"))
    (alt (two (between "0" "5") is_digit) (one is_digit)).

(** A literal character of the format; the expression is compiled with
    [re.IGNORECASE], so a letter matches in either case. *)
Definition lit (lower upper : ascii) (s : list ascii) : list (list ascii) :=
  match s with
  | c :: r => if Ascii.eqb c lower || Ascii.eqb c upper then [r] else []
  | [] => []
  end.

Definition then_ {A B} (xs : list A) (k : A -> list B) : list B := flat_map k xs.

Record fields := { tm_year : Z; tm_mon : Z; tm_mday : Z; tm_hour : Z; tm_min : Z; tm_sec : Z }.

(** All the ways the format's expression matches a prefix of [s], first
    match first, each with the text it leaves unconverted. *)
Definition matches (s : list ascii) : list (fields * list ascii) :=
  then_ (dir_Y s) (fun '(year, s) =>
  then_ (lit "-" "-" s) (fun s =>
  then_ (dir_m s) (fun '(month, s) =>
  then_ (lit "-" "-" s) (fun s =>
  then_ (dir_d s) (fun '(day, s) =>
  then_ (lit "t" "T" s) (fun s =>
  then_ (dir_H s) (fun '(hour, s) =>
  then_ (lit ":" ":" s) (fun s =>
  then_ (dir_M s) (fun '(minute, s) =>
  then_ (lit ":" ":" s) (fun s =>
  then_ (dir_S s) (fun '(second, s) =>
  then_ (lit "z" "Z" s) (fun s =>
    [({| tm_year := year; tm_mon := month; tm_mday := day;
         tm_hour := hour; tm_min := minute; tm_sec := second |}, s)])))))))))))).

Definition is_leap (y : Z) : bool :=
  (y mod 4 =? 0) && (negb (y mod 100 =? 0) || (y mod 400 =? 0)).

Definition days_in_month (y m : Z) : Z :=
  if m =? 2 then (if is_leap y then 29 else 28)
  else if (m =? 4) || (m =? 6) || (m =? 9) || (m =? 11) then 30
  else 31.

(** The checks of the [datetime] constructor on the converted fields. *)
Definition valid (f : fields) : bool :=
  (1 <=? tm_year f) && (tm_year f <=? 9999)
  && (1 <=? tm_mon f) && (tm_mon f <=? 12)
  && (1 <=? tm_mday f) && (tm_mday f <=? days_in_month (tm_year f) (tm_mon f))
  && (0 <=? tm_hour f) && (tm_hour f <=? 23)
  && (0 <=? tm_min f) && (tm_min f <=? 59)
  && (0 <=? tm_sec f) && (tm_sec f <=? 59).

(** [datetime.strptime(s, fmt)]: the first match must convert the whole
    string, and the fields must make a date and a time. *)
Definition strptime (s : string) : result fields :=
  match matches (list_ascii_of_string s) with
  | [] => Raise ValueError
  | (f, rest) :: _ =>
      match rest with
      | [] => if valid f then Ok f else Raise ValueError
      | _ :: _ => Raise ValueError
      end
  end.

End Strptime.

(** [datetime.strptime(v, '%Y-%m-%dT%H:%M:%SZ').year] for an object [v] read
    from the response: anything but a [str] is a [TypeError]. *)
Definition strptime_year (v : json) : result Z :=
  match v with
  | JStr s => f <- Strptime.strptime s ;; Ok (Strptime.tm_year f)
  | _ => Raise TypeError
  end.

(** ** Transformation: [process_data] *)

(** The dict appended for one repository (lines 23-31); its keys are the
    fields. *)
Record repository : Type := {
  name : json;
  stars : json;
  forks : json;
  issues : json;
  created_at : Z;
  description : json;
  owner : json
}.

(** The dict display of lines 23-31; its items are evaluated in order, so the
    first failing lookup decides the exception. *)
Definition repository_of (repo : json) : result repository :=
  v_name <- getitem repo "name" ;;
  v_stars <- getitem repo "stargazers_count" ;;
  v_forks <- getitem repo "forks_count" ;;
  v_issues <- getitem repo "open_issues_count" ;;
  v_created <- getitem repo "created_at" ;;
  year <- strptime_year v_created ;;
  v_description <- getitem repo "description" ;;
  v_owner <- getitem repo "owner" ;;
  v_login <- getitem v_owner "login" ;;
  Ok {| name := v_name; stars := v_stars; forks := v_forks; issues := v_issues;
        created_at := year; description := v_description; owner := v_login |}.

(** *** pandas: columns and frames *)

Definition INT64_MIN : Z := - 2 ^ 63.
Definition INT64_MAX : Z := 2 ^ 63 - 1.

Definition in_int64 (z : Z) : bool := (INT64_MIN <=? z) && (z <=? INT64_MAX).

(** Two's-complement wrap-around of 64-bit integer arithmetic. *)
Definition wrap64 (z : Z) : Z := (z + 2 ^ 63) mod 2 ^ 64 - 2 ^ 63.

(** A column.  [Int64] is pandas' [int64] dtype.  [Object] keeps the cells as
    the Python objects they are; it also stands for the columns pandas would
    store under a further dtype ([bool], [float64], [uint64]), whose
    reductions are [Unmodelled]. *)
Inductive Series : Type :=
| Int64 (v : list Z)
| Object (v : list json).

Definition Series_len (s : Series) : nat :=
  match s with
  | Int64 v => length v
  | Object v => length v
  end.

(** The cell at a position, as a Python object. *)
Definition Series_iloc (s : Series) (i : nat) : option json :=
  match s with
  | Int64 v => option_map JInt (nth_error v i)
  | Object v => nth_error v i
  end.

Record DataFrame : Type := {
  index : list nat;
  columns : list (string * Series)
}.

Definition len (df : DataFrame) : nat := length (index df).

(** dtype inference of the frame constructor on the cells of one column:
    Python ints that all fit 64 bits become an [int64] column. *)
Fixpoint all_int64 (cells : list json) : option (list Z) :=
  match cells with
  | [] => Some []
  | JInt z :: cells' =>
      if in_int64 z
      then option_map (cons z) (all_int64 cells')
      else None
  | _ :: _ => None
  end.

Definition infer_objects (cells : list json) : Series :=
  match all_int64 cells with
  | Some v => Int64 v
  | None => Object cells
  end.

(** [pd.DataFrame(repositories)] for a list of the dicts above: a
    [RangeIndex], and one column per key of the dicts; no dict, no column. *)
Definition pd_DataFrame (repositories : list repository) : DataFrame :=
  match repositories with
  | [] => {| index := []; columns := [] |}
  | _ :: _ =>
      {| index := seq 0 (length repositories);
         columns :=
           [ ("name", infer_objects (map name repositories));
             ("stars", infer_objects (map stars repositories));
             ("forks", infer_objects (map forks repositories));
             ("issues", infer_objects (map issues repositories));
             ("created_at", Int64 (map created_at repositories));
             ("description", infer_objects (map description repositories));
             ("owner", infer_objects (map owner repositories)) ] |}
  end.

(** Lines 18-33. *)
Definition process_data (data : json) : result DataFrame :=
  items <- getitem data "items" ;;
  repos <- iter items ;;
  repositories <- for_each repository_of repos ;;
  Ok (pd_DataFrame repositories).

(** [df[c]]. *)
Definition getcol (df : DataFrame) (c : string) : result Series :=
  match lookup c (columns df) with
  | Some s => Ok s
  | None => Raise (KeyError c)
  end.

(** [df[[c1, ..., cn]]]; the [KeyError] of pandas names the missing labels,
    here the first of them. *)
Definition getcols (df : DataFrame) (cs : list string) : result DataFrame :=
  cols <- for_each (fun c => s <- getcol df c ;; Ok (c, s)) cs ;;
  Ok {| index := index df; columns := cols |}.

(** [s.sum()]: numpy adds an [int64] column in [int64]. *)
Definition Series_sum (s : Series) : result Z :=
  match s with
  | Int64 v => Ok (wrap64 (fold_left Z.add v 0))
  | Object _ => Unmodelled
  end.

(** Conversion of an [int64] to [float64], rounding to nearest. *)
Definition float_of_int64 (z : Z) : float :=
  if z =? INT64_MIN then (-0x1p63)%float
  else if z <? 0 then PrimFloat.opp (PrimFloat.of_uint63 (Uint63.of_Z (- z)))
  else PrimFloat.of_uint63 (Uint63.of_Z z).

(** [s.mean()]: the cells are converted to [float64], added, and the sum is
    divided by their number; the mean of no cell is NaN.  The cells are
    added here in the order of the column; numpy adds them pairwise, which
    gives the same sum whenever no addition rounds. *)
Definition mean_int64 (v : list Z) : float :=
  match v with
  | [] => PrimFloat.nan
  | _ :: _ =>
      PrimFloat.div
        (fold_left PrimFloat.add (map float_of_int64 v) 0%float)
        (float_of_int64 (Z.of_nat (length v)))
  end.

Definition Series_mean (s : Series) : result float :=
  match s with
  | Int64 v => Ok (mean_int64 v)
  | Object _ => Unmodelled
  end.

(** *** pandas: [nlargest] *)

(** Insertion into a list of (position, value) in descending order of value;
    an element goes in front of the elements it equals. *)
Fixpoint insert_desc (x : nat * Z) (l : list (nat * Z)) : list (nat * Z) :=
  match l with
  | [] => [x]
  | y :: l' => if snd x <? snd y then y :: insert_desc x l' else x :: l
  end.

(** Stable sort in descending order of value. *)
Fixpoint sort_desc (l : list (nat * Z)) : list (nat * Z) :=
  match l with
  | [] => []
  | x :: l' => insert_desc x (sort_desc l')
  end.

(** The rows of a column, by position. *)
Definition rows (v : list Z) : list (nat * Z) := combine (seq 0 (length v)) v.

(** The rows in descending order of value. *)
Definition ranking (v : list Z) : list (nat * Z) := sort_desc (rows v).

(** [s.nlargest(n)] with the default [keep='first']: the positions of the
    [n] largest values, in descending order of value, equal values in the
    order of the column. *)
Definition Series_nlargest (n : nat) (v : list Z) : list nat :=
  map fst (firstn n (ranking v)).

Definition Series_take (pos : list nat) (s : Series) : Series :=
  match s with
  | Int64 v => Int64 (map (fun p => nth p v 0) pos)
  | Object v => Object (map (fun p => nth p v JNull) pos)
  end.

(** [df.take(pos)]: the rows at the given positions, with their labels. *)
Definition take (pos : list nat) (df : DataFrame) : DataFrame :=
  {| index := map (fun p => nth p (index df) 0%nat) pos;
     columns := map (fun cs => (fst cs, Series_take pos (snd cs))) (columns df) |}.

(** [df.nlargest(n, c)]. *)
Definition nlargest (n : nat) (c : string) (df : DataFrame) : result DataFrame :=
  s <- getcol df c ;;
  match s with
  | Int64 v => Ok (take (Series_nlargest n v) df)
  | Object _ => Unmodelled
  end.

(** ** Analysis: [analyze_data] *)

(** The dict of lines 37-44. *)
Record Summary : Type := {
  total_repositories : nat;
  total_stars : Z;
  average_stars : float;
  most_starred : DataFrame;
  most_forked : DataFrame;
  average_age : float
}.

(** Lines 35-45; [now_year] is [datetime.now().year]. *)
Definition analyze_data (now_year : Z) (df : DataFrame) : result Summary :=
  let v_total_repositories := len df in
  c_stars <- getcol df "stars" ;;
  v_total_stars <- Series_sum c_stars ;;
  c_stars' <- getcol df "stars" ;;
  v_average_stars <- Series_mean c_stars' ;;
  top_stars <- nlargest 5 "stars" df ;;
  v_most_starred <- getcols top_stars ["name"; "stars"; "owner"] ;;
  top_forks <- nlargest 5 "forks" df ;;
  v_most_forked <- getcols top_forks ["name"; "forks"; "owner"] ;;
  c_created <- getcol df "created_at" ;;
  mean_created <- Series_mean c_created ;;
  Ok {| total_repositories := v_total_repositories;
        total_stars := v_total_stars;
        average_stars := v_average_stars;
        most_starred := v_most_starred;
        most_forked := v_most_forked;
        average_age := PrimFloat.sub (float_of_int64 now_year) mean_created |}.

(** ** The outside world *)

(** What [requests.get] returns: the status, and the body as [json.loads]
    reads it ([None] when the body is not JSON). *)
Record Response : Type := {
  status_code : Z;
  content : option json
}.

(** [response.json()]. *)
Definition Response_json (r : Response) : result json :=
  match content r with
  | Some v => Ok v
  | None => Raise JSONDecodeError
  end.

(** What [print] receives: a literal, or a prefix followed by a formatted
    value ([{n}], [{n:,}], [{x:,.2f}], [{x:.1f}]), or a frame rendered by
    [to_string]. *)
Inductive printed : Type :=
| Text (s : string)
| TextInt (prefix : string) (n : Z)
| TextFloat (prefix : string) (x : float) (suffix : string)
| Frame (df : DataFrame).

Inductive event : Type :=
| Call (function : string)
| HttpGet (url : string) (headers : list (string * string))
| Print (p : printed)
| BarPlot (data : DataFrame) (x y : string)
| Scatter (x y : Series)
| Show.

(** [requests_get] is the network's answer to a GET, [clock_year] is
    [datetime.now().year], [trace] is what has happened so far, latest
    last. *)
Record World : Type := {
  requests_get : string -> list (string * string) -> result Response;
  clock_year : Z;
  trace : list event
}.

Definition IO (A : Type) : Type := World -> result A * World.

Definition ret {A} (a : A) : IO A := fun w => (Ok a, w).

Definition lift {A} (r : result A) : IO A := fun w => (r, w).

Definition bindIO {A B} (m : IO A) (k : A -> IO B) : IO B := fun w =>
  match m w with
  | (Ok a, w') => k a w'
  | (Raise e, w') => (Raise e, w')
  | (Unmodelled, w') => (Unmodelled, w')
  end.

Notation "x <~ m ;; k" := (bindIO m (fun x => k))
  (at level 61, m at next level, right associativity).

Definition emit (e : event) : IO unit := fun w =>
  (Ok tt, {| requests_get := requests_get w; clock_year := clock_year w;
             trace := trace w ++ [e] |}).

(** Entering a function of the script. *)
Definition call {A} (function : string) (body : IO A) : IO A :=
  _ <~ emit (Call function) ;; body.

(** ** Fetching: [fetch_github_data] *)

Definition str (z : Z) : string := NilZero.string_of_int (Z.to_int z).

Definition headers : list (string * string) :=
  [("Accept", "application/vnd.github.v3+json")].

Definition url : string :=
  "https://api.github.com/search/repositories?q=language:python&sort=stars&per_page=50".

(** Lines 7-16. *)
Definition fetch_github_data : IO json :=
  _ <~ emit (HttpGet url headers) ;;
  fun w =>
    match requests_get w url headers with
    | Ok response =>
        if status_code response =? 200
        then (Response_json response, w)
        else (Raise (Exception_
                       ("API request failed with status code: "
                        ++ str (status_code response))%string), w)
    | Raise e => (Raise e, w)
    | Unmodelled => (Unmodelled, w)
    end.

(** ** Reporting: [create_visualizations] and [main] *)

(** Lines 47-70; the styling and layout calls of matplotlib are left out. *)
Definition create_visualizations (df : DataFrame) : IO unit :=
  top_10 <~ lift (nlargest 10 "stars" df) ;;
  _ <~ emit (BarPlot top_10 "stars" "name") ;;
  c_forks <~ lift (getcol df "forks") ;;
  c_stars <~ lift (getcol df "stars") ;;
  _ <~ emit (Scatter c_forks c_stars) ;;
  emit Show.

(** The newline character of the literals of [main]. *)
Definition nl : string := String "010" EmptyString.

(** Lines 72-94. *)
Definition main : IO unit :=
  raw_data <~ call "fetch_github_data" fetch_github_data ;;
  df <~ call "process_data" (lift (process_data raw_data)) ;;
  summary <~ call "analyze_data" (fun w => (analyze_data (clock_year w) df, w)) ;;
  _ <~ emit (Print (Text (nl ++ "=== GitHub Python Repositories Analysis ===")%string)) ;;
  _ <~ emit (Print (TextInt (nl ++ "Total Repositories Analyzed: ")%string
                      (Z.of_nat (total_repositories summary)))) ;;
  _ <~ emit (Print (TextInt "Total Stars: " (total_stars summary))) ;;
  _ <~ emit (Print (TextFloat "Average Stars per Repository: " (average_stars summary) "")) ;;
  _ <~ emit (Print (TextFloat "Average Repository Age: " (average_age summary) " years")) ;;
  _ <~ emit (Print (Text (nl ++ "Top 5 Most Starred Repositories:")%string)) ;;
  _ <~ emit (Print (Frame (most_starred summary))) ;;
  _ <~ emit (Print (Text (nl ++ "Top 5 Most Forked Repositories:")%string)) ;;
  _ <~ emit (Print (Frame (most_forked summary))) ;;
  call "create_visualizations" (create_visualizations df).

(** Whether a function of the script was entered during a run. *)
Definition called (function : string) (t : list event) : Prop := In (Call function) t.

(** The GET requests of a run. *)
Definition gets (t : list event) : list event :=
  filter (fun e => match e with HttpGet _ _ => true | _ => false end) t.

(** ** Vocabulary of the properties *)

(** The sum of a column as a mathematical integer. *)
Definition exact_sum (v : list Z) : Z := fold_right Z.add 0 v.

(** A column as pandas can hold it: the cells of an [int64] column fit 64
    bits. *)
Definition Series_ok (s : Series) : Prop :=
  match s with
  | Int64 v => Forall (fun z => in_int64 z = true) v
  | Object _ => True
  end.

(** A repository table: a frame with a [RangeIndex], columns as long as the
    index, the numeric columns the analysis reads stored as [int64], and the
    two object columns it shows. *)
Record RepositoryTable (df : DataFrame) (c_stars c_forks c_created : list Z) : Prop := {
  table_index : index df = seq 0 (len df);
  table_columns :
    Forall (fun cs => Series_len (snd cs) = len df /\ Series_ok (snd cs)) (columns df);
  table_stars : getcol df "stars" = Ok (Int64 c_stars);
  table_forks : getcol df "forks" = Ok (Int64 c_forks);
  table_created_at : getcol df "created_at" = Ok (Int64 c_created);
  table_name : exists s, getcol df "name" = Ok s;
  table_owner : exists s, getcol df "owner" = Ok s
}.

(** The row of a frame at a position: its cells by column. *)
Definition iloc (df : DataFrame) (i : nat) : option (list (string * json)) :=
  fold_right
    (fun cs acc =>
       match Series_iloc (snd cs) i, acc with
       | Some v, Some row => Some ((fst cs, v) :: row)
       | _, _ => None
       end)
    (Some []) (columns df).

(** The cells the transformation reads from a raw record. *)
Definition owner_login (repo : json) : result json :=
  o <- getitem repo "owner" ;; getitem o "login".

Definition created_year (repo : json) : result Z :=
  c <- getitem repo "created_at" ;; strptime_year c.

(** [repo] is a raw record with all its fields, and [r] holds them. *)
Definition maps_to (repo : json) (r : repository) : Prop :=
  getitem repo "name" = Ok (name r)
  /\ getitem repo "stargazers_count" = Ok (stars r)
  /\ getitem repo "forks_count" = Ok (forks r)
  /\ getitem repo "open_issues_count" = Ok (issues r)
  /\ created_year repo = Ok (created_at r)
  /\ getitem repo "description" = Ok (description r)
  /\ owner_login repo = Ok (owner r).

(** The kinds of the values of a record of the API: strings, integers that
    fit 64 bits, and a description that is a string or null. *)
Definition is_str (v : json) : Prop := exists s, v = JStr s.

Definition is_int64 (v : json) : Prop := exists z, v = JInt z /\ in_int64 z = true.

Definition well_typed (r : repository) : Prop :=
  is_str (name r)
  /\ is_int64 (stars r)
  /\ is_int64 (forks r)
  /\ is_int64 (issues r)
  /\ (description r = JNull \/ is_str (description r))
  /\ is_str (owner r).

(** [repo] is a valid raw record, and [r] holds its fields. *)
Definition valid_record (repo : json) (r : repository) : Prop :=
  maps_to repo r /\ well_typed r.

(** The integer of an integer cell. *)
Definition int_of (v : json) : Z :=
  match v with
  | JInt z => z
  | _ => 0
  end.

(** The row of the table for a record [r]. *)
Definition row_of (r : repository) : list (string * json) :=
  [ ("name", name r); ("stars", stars r); ("forks", forks r); ("issues", issues r);
    ("created_at", JInt (created_at r)); ("description", description r);
    ("owner", owner r) ].



(** An exception of the kinds a lookup or the timestamp parser raises. *)
Definition record_error (e : exn) : Prop :=
  e = TypeError \/ e = ValueError \/ exists k, e = KeyError k.

(** Order of the rows that [nlargest] returns: larger value first, and among
    equal values the earlier position first. *)
Definition before (x y : nat * Z) : Prop :=
  snd y < snd x \/ (snd x = snd y /\ (fst x < fst y)%nat).

(** *** Doubles that hold integers *)

(** Conversion of a non-negative [int64] to [float64]. *)
Definition ofZ (z : Z) : float := PrimFloat.of_uint63 (Uint63.of_Z z).

(** [c] with [n] zero bits appended. *)
Definition shl (c : positive) (n : nat) : positive := Nat.iter n xO c.

(** The zero bits that bring the mantissa of the integer [c] to 53 bits. *)
Definition pad (c : positive) : nat := Z.to_nat (53 - Zpos (digits2_pos c)).

(** The double that holds the positive integer [c], when [c] has at most 53
    bits. *)
Definition canon (c : positive) : spec_float :=
  S754_finite false (shl c (pad c)) (- Z.of_nat (pad c)).

(** The frame [df.nlargest(k, c)[['name', c, 'owner']]] for an [int64] column
    [c] with cells [v]. *)
Definition top_frame (k : nat) (c : string) (v : list Z) (s_name s_owner : Series)
    (df : DataFrame) : DataFrame :=
  let pos := Series_nlargest k v in
  {| index := map (fun p => nth p (index df) 0%nat) pos;
     columns := [ ("name", Series_take pos s_name);
                  (c, Int64 (map (fun p => nth p v 0) pos));
                  ("owner", Series_take pos s_owner) ] |}.

(** [top] holds the [k] rows of [df] with the largest cells of column [c]
    (cells [v]): its labels are [min k (len df)] distinct positions of [df],
    its column [c] holds their cells in descending order, and no row left
    out has a larger cell than a row taken. *)
Definition top_k_of (k : nat) (c : string) (v : list Z) (df top : DataFrame) : Prop :=
  len top = Nat.min k (len df)
  /\ NoDup (index top)
  /\ (forall p, In p (index top) -> (p < len df)%nat)
  /\ getcol top c = Ok (Int64 (map (fun p => nth p v 0) (index top)))
  /\ StronglySorted Z.ge (map (fun p => nth p v 0) (index top))
  /\ (forall p q, In p (index top) -> (q < len df)%nat -> ~ In q (index top) ->
      nth q v 0 <= nth p v 0).


(** ** Sample inputs *)

(** A raw record as the search API returns it, with the fields the script
    reads. *)
Definition raw_repository (n : string) (s f i : json) (created : json) (d : json)
    (login : string) : json :=
  JDict [ ("id", JInt 1); ("name", JStr n);
          ("owner", JDict [("login", JStr login); ("id", JInt 2)]);
          ("description", d); ("created_at", created);
          ("stargazers_count", s); ("forks_count", f); ("open_issues_count", i) ].

Definition search_result (items : list json) : json :=
  JDict [ ("total_count", JInt (Z.of_nat (length items)));
          ("incomplete_results", JBool false);
          ("items", JList items) ].

Definition repo_a : json :=
  raw_repository "a" (JInt 100) (JInt 10) (JInt 3) (JStr "2020-05-17T08:30:00Z") JNull "x".
Definition repo_b : json :=
  raw_repository "b" (JInt 50) (JInt 5) (JInt 0) (JStr "2021-11-02T23:59:59Z") (JStr "d") "y".
Definition repo_c : json :=
  raw_repository "c" (JInt 200) (JInt 1) (JInt 7) (JStr "2019-02-28T00:00:00Z") (JStr "e") "z".

Definition raw3 : json := search_result [repo_a; repo_b; repo_c].

(** The dicts of the records of [raw3]. *)
Definition records3 : list repository :=
  [ {| name := JStr "a"; stars := JInt 100; forks := JInt 10; issues := JInt 3;
       created_at := 2020; description := JNull; owner := JStr "x" |};
    {| name := JStr "b"; stars := JInt 50; forks := JInt 5; issues := JInt 0;
       created_at := 2021; description := JStr "d"; owner := JStr "y" |};
    {| name := JStr "c"; stars := JInt 200; forks := JInt 1; issues := JInt 7;
       created_at := 2019; description := JStr "e"; owner := JStr "z" |} ].

(** The frame of [raw3]. *)
Definition table3 : DataFrame :=
  {| index := [0; 1; 2]%nat;
     columns :=
       [ ("name", Object [JStr "a"; JStr "b"; JStr "c"]);
         ("stars", Int64 [100; 50; 200]);
         ("forks", Int64 [10; 5; 1]);
         ("issues", Int64 [3; 0; 7]);
         ("created_at", Int64 [2020; 2021; 2019]);
         ("description", Object [JNull; JStr "d"; JStr "e"]);
         ("owner", Object [JStr "x"; JStr "y"; JStr "z"]) ] |}.

(** A record without its star count. *)
Definition repo_no_stars : json :=
  JDict [ ("name", JStr "n"); ("owner", JDict [("login", JStr "o")]);
          ("description", JStr "d"); ("created_at", JStr "2020-05-17T08:30:00Z");
          ("forks_count", JInt 1); ("open_issues_count", JInt 0) ].

(** Two repositories whose star counts add up to [2^63]. *)
Definition raw_huge : json :=
  search_result
    [ raw_repository "p" (JInt (2 ^ 62)) (JInt 1) (JInt 0) (JStr "2020-01-01T00:00:00Z") JNull "x";
      raw_repository "q" (JInt (2 ^ 62)) (JInt 2) (JInt 0) (JStr "2020-01-01T00:00:00Z") JNull "y" ].

Definition table_huge : DataFrame :=
  {| index := [0; 1]%nat;
     columns :=
       [ ("name", Object [JStr "p"; JStr "q"]);
         ("stars", Int64 [2 ^ 62; 2 ^ 62]);
         ("forks", Int64 [1; 2]);
         ("issues", Int64 [0; 0]);
         ("created_at", Int64 [2020; 2020]);
         ("description", Object [JNull; JNull]);
         ("owner", Object [JStr "x"; JStr "y"]) ] |}.

(** A table with equal star counts and equal fork counts. *)
Definition table_ties : DataFrame :=
  {| index := [0; 1; 2; 3; 4; 5; 6]%nat;
     columns :=
       [ ("name", Object [JStr "a"; JStr "b"; JStr "c"; JStr "d"; JStr "e"; JStr "f"; JStr "g"]);
         ("stars", Int64 [5; 9; 5; 9; 9; 9; 9]);
         ("forks", Int64 [1; 1; 1; 1; 1; 1; 1]);
         ("issues", Int64 [0; 0; 0; 0; 0; 0; 0]);
         ("created_at", Int64 [2020; 2020; 2020; 2020; 2020; 2020; 2020]);
         ("description", Object [JNull; JNull; JNull; JNull; JNull; JNull; JNull]);
         ("owner", Object [JStr "o"; JStr "o"; JStr "o"; JStr "o"; JStr "o"; JStr "o"; JStr "o"]) ] |}.

(** A frame with the columns of a table and no row. *)
Definition table_empty : DataFrame :=
  {| index := [];
     columns :=
       [ ("name", Object []); ("stars", Int64 []); ("forks", Int64 []);
         ("issues", Int64 []); ("created_at", Int64 []);
         ("description", Object []); ("owner", Object []) ] |}.

Definition response_ok (body : json) : Response :=
  {| status_code := 200; content := Some body |}.

Definition response_forbidden : Response :=
  {| status_code := 403; content := Some (JDict [("message", JStr "rate limit exceeded")]) |}.

(** A world in which the API answers [r], before the script runs. *)
Definition world (r : Response) : World :=
  {| requests_get := fun _ _ => Ok r; clock_year := 2026; trace := [] |}.

(** ** Vocabulary of the further properties *)

(** The keys of a raw record that the transformation reads (lines 24-30). *)
Definition record_keys : list string :=
  ["name"; "stargazers_count"; "forks_count"; "open_issues_count"; "created_at";
   "description"; "owner"].

(** The columns of the frame of the transformation (lines 24-30). *)
Definition frame_columns : list string :=
  ["name"; "stars"; "forks"; "issues"; "created_at"; "description"; "owner"].

(** The columns the analysis reads (lines 39-43). *)
Definition analysis_columns : list string :=
  ["stars"; "forks"; "created_at"; "name"; "owner"].

(** *** Timestamps in the format of the API *)

(** The character of a decimal digit. *)
Definition digit_char (d : Z) : ascii := ascii_of_nat (48 + Z.to_nat d).

(** A number below 100 on two digits, below 10000 on four. *)
Definition fmt2 (n : Z) : list ascii := [digit_char (n / 10); digit_char (n mod 10)].

Definition fmt4 (n : Z) : list ascii :=
  [digit_char (n / 1000); digit_char (n / 100 mod 10); digit_char (n / 10 mod 10);
   digit_char (n mod 10)].

(** The timestamp [YYYY-MM-DDTHH:MM:SSZ] of the fields of a date and time. *)
Definition isoformat (f : Strptime.fields) : string :=
  string_of_list_ascii
    (fmt4 (Strptime.tm_year f) ++ "-"%char :: fmt2 (Strptime.tm_mon f) ++ "-"%char ::
     fmt2 (Strptime.tm_mday f) ++ "T"%char :: fmt2 (Strptime.tm_hour f) ++ ":"%char ::
     fmt2 (Strptime.tm_min f) ++ ":"%char :: fmt2 (Strptime.tm_sec f) ++ ["Z"%char]).

(** What is left of [Strptime.matches] after each directive and the literal
    that follows it. *)
Definition after_S (year month day hour minute second : Z) (s : list ascii)
    : list (Strptime.fields * list ascii) :=
  [({| Strptime.tm_year := year; Strptime.tm_mon := month; Strptime.tm_mday := day;
       Strptime.tm_hour := hour; Strptime.tm_min := minute; Strptime.tm_sec := second |}, s)].

Definition after_M (year month day hour minute : Z) (s : list ascii) :=
  Strptime.then_ (Strptime.dir_S s) (fun '(second, s) =>
  Strptime.then_ (Strptime.lit "z" "Z" s) (after_S year month day hour minute second)).

Definition after_H (year month day hour : Z) (s : list ascii) :=
  Strptime.then_ (Strptime.dir_M s) (fun '(minute, s) =>
  Strptime.then_ (Strptime.lit ":" ":" s) (after_M year month day hour minute)).

Definition after_d (year month day : Z) (s : list ascii) :=
  Strptime.then_ (Strptime.dir_H s) (fun '(hour, s) =>
  Strptime.then_ (Strptime.lit ":" ":" s) (after_H year month day hour)).

Definition after_m (year month : Z) (s : list ascii) :=
  Strptime.then_ (Strptime.dir_d s) (fun '(day, s) =>
  Strptime.then_ (Strptime.lit "t" "T" s) (after_d year month day)).

Definition after_Y (year : Z) (s : list ascii) :=
  Strptime.then_ (Strptime.dir_m s) (fun '(month, s) =>
  Strptime.then_ (Strptime.lit "-" "-" s) (after_m year month)).

(** A world after further events. *)
Definition log (es : list event) (w : World) : World :=
  {| requests_get := requests_get w; clock_year := clock_year w; trace := trace w ++ es |}.

(** The events of a run up to the entry of the analysis. *)
Definition prologue : list event :=
  [Call "fetch_github_data"; HttpGet url headers; Call "process_data"; Call "analyze_data"].


(** [repo_a] with its keys in another order and further keys. *)
Definition repo_a_shuffled : json :=
  JDict [ ("open_issues_count", JInt 3); ("language", JStr "Python");
          ("stargazers_count", JInt 100); ("description", JNull);
          ("owner", JDict [("login", JStr "x"); ("id", JInt 2)]);
          ("name", JStr "a"); ("forks_count", JInt 10); ("fork", JBool false);
          ("created_at", JStr "2020-05-17T08:30:00Z") ].


(** [table3] without the columns that the analysis does not read, the
    others in another order. *)
Definition table3_bare : DataFrame :=
  {| index := [0; 1; 2]%nat;
     columns :=
       [ ("owner", Object [JStr "x"; JStr "y"; JStr "z"]);
         ("created_at", Int64 [2020; 2021; 2019]);
         ("forks", Int64 [10; 5; 1]);
         ("stars", Int64 [100; 50; 200]);
         ("name", Object [JStr "a"; JStr "b"; JStr "c"]) ] |}.

(** [top] shows rows of a table with the columns [nm] (name), [cv] (the
    ranked column [c]) and [ow] (owner): it has these three columns, and its
    row with label [p] holds the cells of the table at position [p]. *)
Definition rows_of (c : string) (nm cv ow : Series) (top : DataFrame) : Prop :=
  exists t_name t_c t_owner,
    columns top = [("name", t_name); (c, t_c); ("owner", t_owner)]
    /\ forall i p, nth_error (index top) i = Some p ->
         Series_iloc t_name i = Series_iloc nm p
         /\ Series_iloc t_c i = Series_iloc cv p
         /\ Series_iloc t_owner i = Series_iloc ow p.

(** A 200 answer whose body is not JSON. *)
Definition response_not_json : Response := {| status_code := 200; content := None |}.

(** ** Facts about results and loops *)

Lemma bind_Ok {A B} (m : result A) (k : A -> result B) (b : B) :
  bind m k = Ok b -> exists a, m = Ok a /\ k a = Ok b.
Proof.
  destruct m as [a | e |]; simpl; intro H; try discriminate.
  exists a; split; [reflexivity | exact H].
Qed.

Lemma lookup_map_snd {V W} (f : V -> W) (k : string) (d : list (string * V)) :
  lookup k (map (fun cs => (fst cs, f (snd cs))) d) = option_map f (lookup k d).
Proof.
  induction d as [| [k' v] d IH]; simpl; [reflexivity |].
  destruct (String.eqb k k'); [reflexivity | exact IH].
Qed.

Lemma getitem_cases (o : json) (k : string) :
  (exists v, getitem o k = Ok v) \/ getitem o k = Raise (KeyError k) \/ getitem o k = Raise TypeError.
Proof.
  destruct o; simpl; auto.
  destruct (lookup k d); eauto.
Qed.

(** What the timestamp parser accepts: the timestamps of the API; fields
    without their leading zero and letters in lower case, which the
    expression of the format also matches; and nothing that is not a date of
    the calendar or that leaves text unconverted. *)
Example strptime_accepts :
  strptime_year (JStr "2020-05-17T08:30:00Z") = Ok 2020
  /\ strptime_year (JStr "2020-5-17t8:30:0z") = Ok 2020
  /\ strptime_year (JStr "2020-02-29T23:59:59Z") = Ok 2020.
Proof. repeat split; reflexivity. Qed.

Example strptime_rejects :
  strptime_year (JStr "2021-02-29T00:00:00Z") = Raise ValueError
  /\ strptime_year (JStr "2020-05-17 08:30:00") = Raise ValueError
  /\ strptime_year (JStr "2020-05-17T08:30:00Z ") = Raise ValueError
  /\ strptime_year (JStr "2020-05-17T08:30:60Z") = Raise ValueError
  /\ strptime_year (JStr "0000-05-17T08:30:00Z") = Raise ValueError
  /\ strptime_year JNull = Raise TypeError.
Proof. repeat split; reflexivity. Qed.

Lemma strptime_cases (s : string) :
  (exists f, Strptime.strptime s = Ok f) \/ Strptime.strptime s = Raise ValueError.
Proof.
  unfold Strptime.strptime.
  destruct (Strptime.matches _) as [| [f [| c rest]] ms]; auto.
  destruct (Strptime.valid f); eauto.
Qed.

Lemma strptime_year_cases (v : json) :
  (exists y, strptime_year v = Ok y)
  \/ strptime_year v = Raise ValueError \/ strptime_year v = Raise TypeError.
Proof.
  destruct v; simpl; auto.
  destruct (strptime_cases s) as [[f H] | H]; rewrite H; simpl; eauto.
Qed.

Lemma record_error_getitem (o : json) (k : string) (e : exn) :
  getitem o k = Raise e -> record_error e.
Proof.
  unfold record_error.
  destruct (getitem_cases o k) as [[v H] | [H | H]]; rewrite H; intro E;
    inversion E; subst; eauto.
Qed.

Lemma getitem_modelled (o : json) (k : string) : getitem o k <> Unmodelled.
Proof.
  destruct (getitem_cases o k) as [[v H] | [H | H]]; rewrite H; discriminate.
Qed.

Lemma strptime_year_modelled (v : json) : strptime_year v <> Unmodelled.
Proof.
  destruct (strptime_year_cases v) as [[y H] | [H | H]]; rewrite H; discriminate.
Qed.

Lemma record_error_strptime_year (v : json) (e : exn) :
  strptime_year v = Raise e -> record_error e.
Proof.
  unfold record_error.
  destruct (strptime_year_cases v) as [[y H] | [H | H]]; rewrite H; intro E;
    inversion E; subst; eauto.
Qed.

(** The conversion of one record either yields its dict or raises an
    exception of a lookup or of the parser. *)
Lemma repository_of_cases (repo : json) :
  (exists r, repository_of repo = Ok r)
  \/ (exists e, repository_of repo = Raise e /\ record_error e).
Proof.
  unfold repository_of.
  repeat
    match goal with
    | |- context [bind (getitem ?o ?k) _] =>
        let H := fresh "H" in
        destruct (getitem o k) eqn:H; simpl;
        [ | right; eexists; split; [reflexivity | eapply record_error_getitem; exact H]
          | exfalso; exact (getitem_modelled _ _ H) ]
    | |- context [bind (strptime_year ?v) _] =>
        let H := fresh "H" in
        destruct (strptime_year v) eqn:H; simpl;
        [ | right; eexists; split; [reflexivity | eapply record_error_strptime_year; exact H]
          | exfalso; exact (strptime_year_modelled _ H) ]
    end.
  left; eauto.
Qed.

(** What the conversion of a record returns when it succeeds. *)
Lemma repository_of_maps_to (repo : json) (r : repository) :
  repository_of repo = Ok r <-> maps_to repo r.
Proof.
  unfold repository_of, maps_to, created_year, owner_login.
  destruct (getitem repo "name") as [vn | |]; simpl;
    [| split; [discriminate | intros (H & _); discriminate] ..].
  destruct (getitem repo "stargazers_count") as [vs | |]; simpl;
    [| split; [discriminate | intros (_ & H & _); discriminate] ..].
  destruct (getitem repo "forks_count") as [vf | |]; simpl;
    [| split; [discriminate | intros (_ & _ & H & _); discriminate] ..].
  destruct (getitem repo "open_issues_count") as [vi | |]; simpl;
    [| split; [discriminate | intros (_ & _ & _ & H & _); discriminate] ..].
  destruct (getitem repo "created_at") as [vc | |]; simpl;
    [| split; [discriminate | intros (_ & _ & _ & _ & H & _); discriminate] ..].
  destruct (strptime_year vc) as [y | |]; simpl;
    [| split; [discriminate | intros (_ & _ & _ & _ & H & _); discriminate] ..].
  destruct (getitem repo "description") as [vd | |]; simpl;
    [| split; [discriminate | intros (_ & _ & _ & _ & _ & H & _); discriminate] ..].
  destruct (getitem repo "owner") as [vo | |]; simpl;
    [| split; [discriminate | intros (_ & _ & _ & _ & _ & _ & H); discriminate] ..].
  destruct (getitem vo "login") as [vl | |]; simpl;
    [| split; [discriminate | intros (_ & _ & _ & _ & _ & _ & H); discriminate] ..].
  destruct r as [n s f i c d o]; simpl. split.
  - intro H; inversion H; subst; repeat split; reflexivity.
  - intros (Hn & Hs & Hf & Hi & Hc & Hd & Ho).
    inversion Hn; inversion Hs; inversion Hf; inversion Hi; inversion Hc;
      inversion Hd; inversion Ho; reflexivity.
Qed.

Lemma for_each_Forall2 {A B} (f : A -> result B) (xs : list A) (ys : list B) :
  for_each f xs = Ok ys <-> Forall2 (fun x y => f x = Ok y) xs ys.
Proof.
  revert ys; induction xs as [| x xs IH]; intros ys; simpl.
  - split; intro H; [inversion H; constructor | inversion H; reflexivity].
  - split; intro H.
    + apply bind_Ok in H. destruct H as [y [Hy H]].
      apply bind_Ok in H. destruct H as [ys' [Hys H]].
      inversion H; subst. constructor; [exact Hy | apply IH; exact Hys].
    + inversion H as [| x' y xs' ys' Hy Hys]; subst.
      rewrite Hy; simpl. apply IH in Hys. rewrite Hys; simpl. reflexivity.
Qed.



(** ** Facts about [nlargest] *)

Section Nlargest.

Local Open Scope nat_scope.



Lemma insert_desc_perm (x : nat * Z) (l : list (nat * Z)) :
  Permutation (x :: l) (insert_desc x l).
Proof.
  induction l as [| y l IH]; simpl; [reflexivity |].
  destruct (snd x <? snd y)%Z; [| reflexivity].
  rewrite perm_swap. constructor. exact IH.
Qed.

Lemma sort_desc_perm (l : list (nat * Z)) : Permutation l (sort_desc l).
Proof.
  induction l as [| x l IH]; simpl; [constructor |].
  rewrite <- insert_desc_perm. constructor. exact IH.
Qed.

(** Inserting a row whose position is in front of all the positions of a
    list in order keeps the list in order. *)
Lemma insert_desc_sorted (x : nat * Z) (l : list (nat * Z)) :
  Forall (fun y => fst x < fst y) l ->
  StronglySorted before l ->
  StronglySorted before (insert_desc x l).
Proof.
  induction l as [| y l IH]; intros Hpos Hs; simpl.
  - constructor; constructor.
  - inversion Hpos as [| ? ? Hy Hl]; subst.
    inversion Hs as [| ? ? Hs' Hall]; subst.
    destruct (snd x <? snd y)%Z eqn:E.
    + apply Z.ltb_lt in E. constructor.
      * apply IH; assumption.
      * apply (Permutation_Forall (insert_desc_perm x l)).
        constructor; [left; exact E | exact Hall].
    + apply Z.ltb_ge in E. constructor; [exact Hs |].
      constructor.
      * unfold before. lia.
      * rewrite Forall_forall in *. intros z Hz.
        specialize (Hall z Hz). specialize (Hl z Hz).
        unfold before in *. lia.
Qed.

Lemma sort_desc_sorted (l : list (nat * Z)) :
  StronglySorted (fun x y => fst x < fst y) l ->
  StronglySorted before (sort_desc l).
Proof.
  induction l as [| x l IH]; intro Hs; simpl; [constructor |].
  inversion Hs as [| ? ? Hs' Hall]; subst.
  apply insert_desc_sorted; [| apply IH; exact Hs'].
  apply (Permutation_Forall (sort_desc_perm l)). exact Hall.
Qed.

Lemma combine_seq_sorted (v : list Z) (a : nat) :
  StronglySorted (fun x y : nat * Z => fst x < fst y) (combine (seq a (length v)) v).
Proof.
  revert a; induction v as [| z v IH]; intro a; simpl; constructor.
  - apply IH.
  - rewrite Forall_forall. intros [p q] Hin. simpl.
    apply in_combine_l in Hin. apply in_seq in Hin. lia.
Qed.

Lemma in_combine_seq (v : list Z) (a p : nat) (z : Z) :
  In (p, z) (combine (seq a (length v)) v) <->
  a <= p < a + length v /\ nth (p - a) v 0%Z = z.
Proof.
  revert a; induction v as [| y v IH]; intro a; simpl.
  - split; [contradiction | lia].
  - rewrite IH. split.
    + intros [H | [H1 H2]].
      * inversion H; subst. replace (p - p) with 0 by lia. split; [lia | reflexivity].
      * split; [lia |]. destruct (p - a) as [| k] eqn:E; [lia |].
        replace (p - S a) with k in H2 by lia. exact H2.
    + intros [H1 H2]. destruct (Nat.eq_dec p a) as [-> | Hne].
      * left. replace (a - a) with 0 in H2 by lia. congruence.
      * right. split; [lia |]. destruct (p - a) as [| k] eqn:E; [lia |].
        replace (p - S a) with k by lia. exact H2.
Qed.

Lemma in_rows (v : list Z) (p : nat) (z : Z) :
  In (p, z) (rows v) <-> p < length v /\ nth p v 0%Z = z.
Proof.
  unfold rows. rewrite in_combine_seq. rewrite Nat.sub_0_r. split; intros [H1 H2]; split; auto; lia.
Qed.

Lemma length_rows (v : list Z) : length (rows v) = length v.
Proof. unfold rows. rewrite length_combine, length_seq. apply Nat.min_id. Qed.

Lemma ranking_sorted (v : list Z) : StronglySorted before (ranking v).
Proof. apply sort_desc_sorted. apply combine_seq_sorted. Qed.

Lemma in_ranking (v : list Z) (p : nat) (z : Z) :
  In (p, z) (ranking v) <-> p < length v /\ nth p v 0%Z = z.
Proof.
  rewrite <- in_rows. unfold ranking. split; intro H.
  - eapply Permutation_in; [symmetry; apply sort_desc_perm | exact H].
  - eapply Permutation_in; [apply sort_desc_perm | exact H].
Qed.

Lemma length_ranking (v : list Z) : length (ranking v) = length v.
Proof.
  unfold ranking. rewrite <- (Permutation_length (sort_desc_perm _)). apply length_rows.
Qed.

Lemma length_Series_nlargest (n : nat) (v : list Z) :
  length (Series_nlargest n v) = Nat.min n (length v).
Proof.
  unfold Series_nlargest.
  rewrite length_map, length_firstn, length_ranking. reflexivity.
Qed.

Lemma in_firstn {A} (n : nat) (l : list A) (x : A) : In x (firstn n l) -> In x l.
Proof.
  intro H. rewrite <- (firstn_skipn n l). apply in_or_app. left. exact H.
Qed.

Lemma sorted_app {A} (R : A -> A -> Prop) (l1 l2 : list A) :
  StronglySorted R (l1 ++ l2) ->
  StronglySorted R l1 /\ StronglySorted R l2 /\
  forall x y, In x l1 -> In y l2 -> R x y.
Proof.
  induction l1 as [| a l1 IH]; simpl; intro H.
  - repeat split; [constructor | exact H | contradiction].
  - inversion H as [| ? ? Hs Hall]; subst.
    destruct (IH Hs) as (H1 & H2 & H12).
    rewrite Forall_app in Hall. destruct Hall as [Ha1 Ha2].
    repeat split; [constructor; assumption | exact H2 |].
    intros x y [-> | Hx] Hy; [| apply H12; assumption].
    rewrite Forall_forall in Ha2. apply Ha2. exact Hy.
Qed.


(** The values of the selected rows. *)
Lemma values_Series_nlargest (n : nat) (v : list Z) :
  map (fun p => nth p v 0%Z) (Series_nlargest n v) = map snd (firstn n (ranking v)).
Proof.
  unfold Series_nlargest. rewrite map_map. apply map_ext_in.
  intros [p z] Hin. simpl.
  apply in_firstn in Hin. apply in_ranking in Hin. apply Hin.
Qed.

Lemma in_Series_nlargest (n : nat) (v : list Z) (p : nat) :
  In p (Series_nlargest n v) <-> In (p, nth p v 0%Z) (firstn n (ranking v)).
Proof.
  unfold Series_nlargest. rewrite in_map_iff. split.
  - intros [[q z] [Hq Hin]]. simpl in Hq. subst q.
    pose proof (in_firstn _ _ _ Hin) as Hr. apply in_ranking in Hr.
    destruct Hr as [_ <-]. exact Hin.
  - intro H. exists (p, nth p v 0%Z). split; [reflexivity | exact H].
Qed.

Lemma Series_nlargest_bound (n : nat) (v : list Z) (p : nat) :
  In p (Series_nlargest n v) -> p < length v.
Proof.
  intro H. apply in_Series_nlargest in H. apply in_firstn in H.
  apply in_ranking in H. apply H.
Qed.

(** The selected values are in descending order. *)
Lemma Series_nlargest_descending (n : nat) (v : list Z) :
  StronglySorted Z.ge (map (fun p => nth p v 0%Z) (Series_nlargest n v)).
Proof.
  rewrite values_Series_nlargest.
  pose proof (ranking_sorted v) as Hs.
  rewrite <- (firstn_skipn n (ranking v)) in Hs.
  apply sorted_app in Hs. destruct Hs as (Hs & _ & _).
  induction Hs as [| x l Hs IH Hall]; simpl; constructor; [exact IH |].
  rewrite Forall_forall in *. intros z Hz.
  apply in_map_iff in Hz. destruct Hz as [y [<- Hy]].
  specialize (Hall y Hy). unfold before in Hall. lia.
Qed.

(** A selected value is at least any value left out. *)
Lemma Series_nlargest_top (n : nat) (v : list Z) (p q : nat) :
  In p (Series_nlargest n v) ->
  q < length v -> ~ In q (Series_nlargest n v) ->
  (nth q v 0 <= nth p v 0)%Z.
Proof.
  intros Hp Hq Hnq.
  apply in_Series_nlargest in Hp.
  assert (Hin : In (q, nth q v 0%Z) (ranking v)) by (apply in_ranking; auto).
  rewrite <- (firstn_skipn n (ranking v)) in Hin.
  apply in_app_or in Hin. destruct Hin as [Hin | Hin].
  - exfalso. apply Hnq. apply in_Series_nlargest. exact Hin.
  - pose proof (ranking_sorted v) as Hs.
    rewrite <- (firstn_skipn n (ranking v)) in Hs.
    apply sorted_app in Hs. destruct Hs as (_ & _ & Hcross).
    specialize (Hcross _ _ Hp Hin). unfold before in Hcross. simpl in Hcross. lia.
Qed.


End Nlargest.

(** ** Facts about frames and the analysis *)

Lemma lookup_In {V} (k : string) (d : list (string * V)) (v : V) :
  lookup k d = Some v -> In (k, v) d.
Proof.
  induction d as [| [k' v'] d IH]; simpl; [discriminate |].
  destruct (String.eqb k k') eqn:E.
  - apply String.eqb_eq in E. subst k'. intro H; inversion H; subst. left; reflexivity.
  - intro H. right. exact (IH H).
Qed.

Lemma getcol_lookup (df : DataFrame) (c : string) (s : Series) :
  getcol df c = Ok s <-> lookup c (columns df) = Some s.
Proof.
  unfold getcol. destruct (lookup c (columns df)); split; intro H;
    inversion H; reflexivity.
Qed.

Lemma getcol_take (pos : list nat) (df : DataFrame) (c : string) (s : Series) :
  getcol df c = Ok s -> getcol (take pos df) c = Ok (Series_take pos s).
Proof.
  rewrite !getcol_lookup. unfold take; simpl. intro H.
  rewrite (lookup_map_snd (Series_take pos)), H. reflexivity.
Qed.

(** The summary of a frame that has the columns the analysis reads. *)
Lemma analyze_data_columns (y : Z) (df : DataFrame) (st fk cr : list Z) (nm ow : Series) :
  getcol df "stars" = Ok (Int64 st) ->
  getcol df "forks" = Ok (Int64 fk) ->
  getcol df "created_at" = Ok (Int64 cr) ->
  getcol df "name" = Ok nm ->
  getcol df "owner" = Ok ow ->
  analyze_data y df =
    Ok {| total_repositories := len df;
          total_stars := wrap64 (fold_left Z.add st 0);
          average_stars := mean_int64 st;
          most_starred := top_frame 5 "stars" st nm ow df;
          most_forked := top_frame 5 "forks" fk nm ow df;
          average_age := PrimFloat.sub (float_of_int64 y) (mean_int64 cr) |}.
Proof.
  intros Hst Hfk Hcr Hnm How.
  unfold analyze_data, nlargest.
  rewrite Hst, Hfk, Hcr. simpl.
  unfold getcols. simpl.
  rewrite !(getcol_take _ _ _ _ Hnm), !(getcol_take _ _ _ _ How),
    (getcol_take _ _ _ _ Hst), (getcol_take _ _ _ _ Hfk).
  simpl. reflexivity.
Qed.

Lemma fold_left_add (v : list Z) (a : Z) : fold_left Z.add v a = a + exact_sum v.
Proof.
  revert a; induction v as [| z v IH]; intro a; simpl; [lia |].
  rewrite IH. lia.
Qed.

Lemma wrap64_small (z : Z) : INT64_MIN <= z <= INT64_MAX -> wrap64 z = z.
Proof.
  unfold wrap64, INT64_MIN, INT64_MAX. intro H.
  rewrite Z.mod_small by lia. lia.
Qed.

Lemma nth_seq_0 (n p : nat) : (p < n)%nat -> nth p (seq 0 n) 0%nat = p.
Proof. intro H. rewrite seq_nth by exact H. reflexivity. Qed.

Lemma map_fst_rows (v : list Z) : map fst (rows v) = seq 0 (length v).
Proof.
  unfold rows. generalize 0%nat.
  induction v as [| z v IH]; intro a; simpl; [reflexivity |].
  rewrite IH. reflexivity.
Qed.

Lemma NoDup_Series_nlargest (n : nat) (v : list Z) : NoDup (Series_nlargest n v).
Proof.
  unfold Series_nlargest.
  assert (H : NoDup (map fst (ranking v))).
  { apply (Permutation_NoDup (l := map fst (rows v))).
    - apply Permutation_map. apply sort_desc_perm.
    - rewrite map_fst_rows. apply seq_NoDup. }
  rewrite <- (firstn_skipn n (ranking v)), map_app in H.
  apply NoDup_app_remove_r in H. exact H.
Qed.

(** The length of a column of a table. *)
Lemma table_column_length (df : DataFrame) (st fk cr : list Z) (c : string) (s : Series) :
  RepositoryTable df st fk cr -> getcol df c = Ok s -> Series_len s = len df.
Proof.
  intros T H. apply getcol_lookup, lookup_In in H.
  pose proof (table_columns _ _ _ _ T) as Hall.
  rewrite Forall_forall in Hall. apply (Hall _ H).
Qed.

(** The labels of the rows that [nlargest] takes from a table are their
    positions. *)
Lemma top_frame_index (k : nat) (c : string) (v : list Z) (nm ow : Series) (df : DataFrame) :
  index df = seq 0 (len df) -> length v = len df ->
  index (top_frame k c v nm ow df) = Series_nlargest k v.
Proof.
  intros Hidx Hlen. unfold top_frame; simpl.
  rewrite <- (map_id (Series_nlargest k v)) at 2.
  apply map_ext_in. intros p Hp.
  apply Series_nlargest_bound in Hp.
  rewrite Hidx. apply nth_seq_0. lia.
Qed.

Lemma top_frame_top_k (k : nat) (c : string) (v : list Z) (nm ow : Series) (df : DataFrame) :
  c <> "name" ->
  index df = seq 0 (len df) -> length v = len df ->
  top_k_of k c v df (top_frame k c v nm ow df).
Proof.
  intros Hc Hidx Hlen. unfold top_k_of, len at 1.
  rewrite (top_frame_index _ _ _ _ _ _ Hidx Hlen).
  rewrite length_Series_nlargest, Hlen.
  split; [reflexivity |].
  split; [apply NoDup_Series_nlargest |].
  split; [intros p Hp; rewrite <- Hlen; exact (Series_nlargest_bound _ _ _ Hp) |].
  split.
  { unfold getcol, top_frame; simpl.
    destruct (String.eqb c "name") eqn:E; [apply String.eqb_eq in E; contradiction |].
    rewrite String.eqb_refl. reflexivity. }
  split; [apply Series_nlargest_descending |].
  intros p q Hp Hq Hnq. apply (Series_nlargest_top k); [exact Hp | lia | exact Hnq].
Qed.

(** ** Facts about doubles that hold integers *)

Lemma iter_pos_nat {A} (f : A -> A) (p : positive) (x : A) :
  iter_pos f p x = Nat.iter (Pos.to_nat p) f x.
Proof.
  revert x; induction p as [p IH | p IH |]; intro x.
  - change (iter_pos f p~1 x) with (iter_pos f p (iter_pos f p (f x))).
    rewrite !IH, Pos2Nat.inj_xI, <- Nat.iter_add, <- Nat.iter_succ_r.
    f_equal. lia.
  - change (iter_pos f p~0 x) with (iter_pos f p (iter_pos f p x)).
    rewrite !IH, Pos2Nat.inj_xO, <- Nat.iter_add. f_equal. lia.
  - reflexivity.
Qed.

Lemma Pos_iter_shl (c d : positive) : Pos.iter xO c d = shl c (Pos.to_nat d).
Proof. apply Pos2Nat.inj_iter. Qed.

Lemma shl_shl (c : positive) (n m : nat) : shl (shl c n) m = shl c (m + n).
Proof. unfold shl. rewrite Nat.iter_add. reflexivity. Qed.

Lemma digits_shl (c : positive) (n : nat) :
  Zpos (digits2_pos (shl c n)) = Zpos (digits2_pos c) + Z.of_nat n.
Proof.
  induction n as [| n IH]; [simpl; lia |].
  unfold shl in *. simpl Nat.iter. simpl digits2_pos.
  rewrite Pos2Z.inj_succ, IH. lia.
Qed.

Lemma Zpos_shl (c : positive) (n : nat) : Zpos (shl c n) = Zpos c * 2 ^ Z.of_nat n.
Proof.
  induction n as [| n IH]; [simpl; lia |].
  unfold shl in *. simpl Nat.iter. rewrite Pos2Z.inj_xO, IH, Nat2Z.inj_succ, Z.pow_succ_r by lia.
  lia.
Qed.

Lemma shr_exact (c : positive) (n j : nat) :
  Nat.iter n shr_1 {| shr_m := Zpos (shl c (n + j)); shr_r := false; shr_s := false |}
  = {| shr_m := Zpos (shl c j); shr_r := false; shr_s := false |}.
Proof.
  induction n as [| n IH]; [reflexivity |].
  rewrite Nat.iter_succ_r. simpl. exact IH.
Qed.

Lemma shr_fexp_noshift (m : positive) (e : Z) :
  Zpos (digits2_pos m) = 53 -> -1074 <= e ->
  shr_fexp prec emax (Zpos m) e loc_Exact
  = ({| shr_m := Zpos m; shr_r := false; shr_s := false |}, e).
Proof.
  intros Hd He. unfold shr_fexp.
  match goal with
  | |- shr _ _ ?t = _ =>
      assert (E : t = 0)
        by (unfold fexp, SpecFloat.emin, Zdigits2; rewrite Hd; unfold prec, emax; lia);
      rewrite E
  end.
  reflexivity.
Qed.

Lemma round_aux_exact (s : bool) (m : positive) (e : Z) :
  Zpos (digits2_pos m) = 53 -> -1074 <= e <= 971 ->
  binary_round_aux prec emax s (Zpos m) e loc_Exact = S754_finite s m e.
Proof.
  intros Hd He.
  unfold binary_round_aux.
  rewrite (shr_fexp_noshift m e Hd) by lia.
  cbn [shr_m loc_of_shr_record round_nearest_even].
  rewrite (shr_fexp_noshift m e Hd) by lia.
  cbn [shr_m].
  match goal with
  | |- (if ?b then _ else _) = _ =>
      assert (E : b = true) by (apply Z.leb_le; unfold prec, emax; lia);
      rewrite E
  end.
  reflexivity.
Qed.

(** A mantissa with more digits than the precision whose extra digits are
    zeros is rounded without error. *)
Lemma round_aux_shift (c : positive) (k : nat) :
  Zpos (digits2_pos c) <= 53 ->
  (pad c <= k)%nat ->
  binary_round_aux prec emax false (Zpos (shl c k)) (- Z.of_nat k) loc_Exact = canon c.
Proof.
  intros Hd Hk. unfold canon.
  set (j := pad c) in *.
  assert (Hj : Z.of_nat j = 53 - Zpos (digits2_pos c)) by (unfold j, pad; lia).
  pose proof (digits_shl c j) as Hdj.
  unfold binary_round_aux.
  assert (E : shr_fexp prec emax (Zpos (shl c k)) (- Z.of_nat k) loc_Exact
              = ({| shr_m := Zpos (shl c j); shr_r := false; shr_s := false |},
                 - Z.of_nat j)).
  { unfold shr_fexp.
    match goal with
    | |- shr _ _ ?t = _ =>
        assert (Et : t = Z.of_nat (k - j))
          by (unfold fexp, SpecFloat.emin, Zdigits2; rewrite digits_shl;
              unfold prec, emax; lia);
        rewrite Et
    end.
    destruct (k - j)%nat as [| n] eqn:En.
    - assert (k = j) by lia. subst k. reflexivity.
    - unfold shr. rewrite <- En.
      replace (Z.of_nat (k - j)) with (Zpos (Pos.of_nat (k - j))) by lia.
      rewrite iter_pos_nat, Nat2Pos.id by lia.
      replace k with ((k - j) + j)%nat at 2 by lia.
      cbn [shr_record_of_loc]. rewrite shr_exact. f_equal. lia. }
  rewrite E. cbn [shr_m loc_of_shr_record round_nearest_even].
  rewrite shr_fexp_noshift by lia.
  cbn [shr_m].
  match goal with
  | |- (if ?b then _ else _) = _ =>
      assert (Eb : b = true) by (apply Z.leb_le; unfold prec, emax; lia);
      rewrite Eb
  end.
  reflexivity.
Qed.

Lemma round_canon (c : positive) (k : nat) :
  Zpos (digits2_pos c) <= 53 ->
  binary_round prec emax false (shl c k) (- Z.of_nat k) = canon c.
Proof.
  intro Hd.
  assert (Hj : Z.of_nat (pad c) = 53 - Zpos (digits2_pos c)) by (unfold pad; lia).
  unfold binary_round, shl_align.
  match goal with
  | |- context [match ?t with Zneg _ => _ | _ => _ end] =>
      assert (Et : t = Z.of_nat k - Z.of_nat (pad c))
        by (unfold fexp, SpecFloat.emin; rewrite digits_shl; unfold prec, emax; lia);
      rewrite Et
  end.
  destruct (Z.of_nat k - Z.of_nat (pad c)) as [| p | p] eqn:Ek.
  - apply round_aux_shift; [exact Hd | lia].
  - apply round_aux_shift; [exact Hd | lia].
  - rewrite Pos_iter_shl, shl_shl.
    replace (Pos.to_nat p + k)%nat with (pad c) by lia.
    rewrite round_aux_exact.
    + unfold canon. f_equal.
      unfold fexp, SpecFloat.emin. rewrite digits_shl. unfold prec, emax. lia.
    + rewrite digits_shl. lia.
    + unfold fexp, SpecFloat.emin. rewrite digits_shl. unfold prec, emax. lia.
Qed.

Lemma digits_bounds (p : positive) :
  2 ^ (Zpos (digits2_pos p) - 1) <= Zpos p < 2 ^ Zpos (digits2_pos p).
Proof.
  induction p as [p IH | p IH |]; cbn [digits2_pos].
  - rewrite Pos2Z.inj_succ, (Pos2Z.inj_xI p).
    replace (Z.succ (Zpos (digits2_pos p)) - 1) with (Z.succ (Zpos (digits2_pos p) - 1)) by lia.
    rewrite !Z.pow_succ_r by lia. lia.
  - rewrite Pos2Z.inj_succ, (Pos2Z.inj_xO p).
    replace (Z.succ (Zpos (digits2_pos p)) - 1) with (Z.succ (Zpos (digits2_pos p) - 1)) by lia.
    rewrite !Z.pow_succ_r by lia. lia.
  - simpl. lia.
Qed.

Lemma digits_small (p : positive) : Zpos p < 2 ^ 53 -> Zpos (digits2_pos p) <= 53.
Proof.
  intro H. destruct (Z.le_gt_cases (Zpos (digits2_pos p)) 53) as [Hle | Hgt]; [exact Hle |].
  exfalso. pose proof (digits_bounds p) as [Hlo _].
  assert (2 ^ 53 <= 2 ^ (Zpos (digits2_pos p) - 1)) by (apply Z.pow_le_mono_r; lia).
  lia.
Qed.

(** An integer below [2^53] is a double. *)
Lemma normalize_pos (p : positive) :
  Zpos p < 2 ^ 53 -> binary_normalize prec emax (Zpos p) 0 false = canon p.
Proof.
  intro H. unfold binary_normalize.
  exact (round_canon p 0 (digits_small p H)).
Qed.

Lemma shl_align_fst (a : positive) (j k : nat) :
  (j <= k)%nat ->
  fst (shl_align (shl a j) (- Z.of_nat j) (- Z.of_nat k)) = shl a k.
Proof.
  intro H. unfold shl_align.
  destruct (- Z.of_nat k - - Z.of_nat j) as [| p | p] eqn:E; cbn [fst].
  - f_equal. lia.
  - lia.
  - rewrite Pos_iter_shl, shl_shl. f_equal. lia.
Qed.

Lemma shl_add (a b : positive) (k : nat) : (shl a k + shl b k)%positive = shl (a + b) k.
Proof.
  induction k as [| k IH]; [reflexivity |].
  change (shl a (S k)) with (shl a k)~0%positive.
  change (shl b (S k)) with (shl b k)~0%positive.
  change (shl (a + b) (S k)) with (shl (a + b) k)~0%positive.
  rewrite <- IH. reflexivity.
Qed.

(** The sum of two integers is exact when it is below [2^53]. *)
Lemma SFadd_canon (a b : positive) :
  Zpos (a + b) < 2 ^ 53 ->
  SFadd prec emax (canon a) (canon b) = canon (a + b).
Proof.
  intro H.
  assert (Ha : Zpos a < 2 ^ 53) by lia.
  assert (Hb : Zpos b < 2 ^ 53) by lia.
  unfold canon at 1 2. unfold SFadd.
  set (k := Nat.max (pad a) (pad b)).
  assert (Ek : Z.min (- Z.of_nat (pad a)) (- Z.of_nat (pad b)) = - Z.of_nat k)
    by (unfold k; lia).
  rewrite Ek.
  rewrite !shl_align_fst by (unfold k; lia).
  cbn [cond_Zopp Z.add]. rewrite shl_add.
  unfold binary_normalize.
  apply round_canon. apply digits_small. exact H.
Qed.

Lemma Prim2SF_ofZ (z : Z) :
  0 <= z < 2 ^ 63 -> Prim2SF (ofZ z) = binary_normalize prec emax z 0 false.
Proof.
  intro H. unfold ofZ. rewrite of_uint63_spec, of_Z_spec.
  rewrite Z.mod_small; [reflexivity |].
  change wB with (2 ^ 63). exact H.
Qed.

Lemma ofZ_add (a b : Z) :
  0 <= a -> 0 <= b -> a + b < 2 ^ 53 -> (ofZ a + ofZ b)%float = ofZ (a + b).
Proof.
  intros Ha Hb H.
  apply Prim2SF_inj.
  rewrite FloatAxioms.add_spec, !Prim2SF_ofZ by lia.
  unfold SF64add.
  destruct a as [| a | a]; [| | lia]; destruct b as [| b | b]; try lia.
  - reflexivity.
  - rewrite Z.add_0_l, normalize_pos by lia. reflexivity.
  - rewrite Z.add_0_r, normalize_pos by lia. reflexivity.
  - change (Zpos a + Zpos b) with (Zpos (a + b)) in *.
    rewrite !normalize_pos by lia.
    apply SFadd_canon. exact H.
Qed.

Lemma zero_ofZ : 0%float = ofZ 0.
Proof. reflexivity. Qed.

Lemma float_of_int64_ofZ (z : Z) : 0 <= z -> float_of_int64 z = ofZ z.
Proof.
  intro H. unfold float_of_int64, ofZ.
  replace (z =? INT64_MIN) with false
    by (symmetry; apply Z.eqb_neq; unfold INT64_MIN; lia).
  replace (z <? 0) with false by (symmetry; apply Z.ltb_ge; exact H).
  reflexivity.
Qed.

Lemma exact_sum_nonneg (v : list Z) : Forall (fun z => 0 <= z) v -> 0 <= exact_sum v.
Proof.
  induction 1 as [| z v Hz _ IH]; simpl; lia.
Qed.

(** Adding non-negative integers as doubles is exact as long as the sum
    stays below [2^53], whatever the order of the additions; here in the
    order of the column. *)
Lemma float_sum_exact (v : list Z) (s0 : Z) :
  Forall (fun z => 0 <= z) v ->
  0 <= s0 ->
  s0 + exact_sum v < 2 ^ 53 ->
  fold_left PrimFloat.add (map float_of_int64 v) (ofZ s0) = ofZ (s0 + exact_sum v).
Proof.
  intro H. revert s0.
  induction H as [| z v Hz Hv IH]; intros s0 Hs Hlt; simpl.
  - rewrite Z.add_0_r. reflexivity.
  - pose proof (exact_sum_nonneg v Hv) as Hnn.
    simpl in Hlt.
    rewrite (float_of_int64_ofZ z Hz), ofZ_add by lia.
    rewrite IH by lia. f_equal. lia.
Qed.

(** ** Facts about runs *)

Lemma call_fetch (w : World) :
  call "fetch_github_data" fetch_github_data w =
    (match requests_get w url headers with
     | Ok response =>
         if status_code response =? 200
         then Response_json response
         else Raise (Exception_
                       ("API request failed with status code: "
                        ++ str (status_code response))%string)
     | Raise e => Raise e
     | Unmodelled => Unmodelled
     end,
     {| requests_get := requests_get w; clock_year := clock_year w;
        trace := trace w ++ [Call "fetch_github_data"; HttpGet url headers] |}).
Proof.
  unfold call, fetch_github_data, bindIO, emit. simpl.
  rewrite <- app_assoc. simpl.
  destruct (requests_get w url headers) as [r | e |]; [| reflexivity ..].
  destruct (status_code r =? 200); reflexivity.
Qed.

(** A run in which the fetch raises stops there. *)
Lemma main_fetch_raises (w : World) (e : exn) :
  fst (call "fetch_github_data" fetch_github_data w) = Raise e ->
  main w = (Raise e, snd (call "fetch_github_data" fetch_github_data w)).
Proof.
  unfold main at 1. unfold bindIO at 1.
  destruct (call "fetch_github_data" fetch_github_data w) as [r w']. simpl.
  intros ->. reflexivity.
Qed.

Lemma bindIO_run {A B} (m : IO A) (k : A -> IO B) (w : World) :
  bindIO m k w =
    match m w with
    | (Ok a, w') => k a w'
    | (Raise e, w') => (Raise e, w')
    | (Unmodelled, w') => (Unmodelled, w')
    end.
Proof. reflexivity. Qed.


Lemma Series_iloc_infer (cells : list json) (i : nat) :
  Series_iloc (infer_objects cells) i = nth_error cells i.
Proof.
  unfold infer_objects.
  destruct (all_int64 cells) as [v |] eqn:E; [| reflexivity].
  simpl. revert v i E.
  induction cells as [| c cells IH]; intros v i E; simpl in E.
  - inversion E; subst. destruct i; reflexivity.
  - destruct c; try discriminate.
    destruct (in_int64 z); [| discriminate].
    destruct (all_int64 cells) as [v' |]; [| discriminate].
    simpl in E. inversion E; subst.
    destruct i as [| i]; simpl; [reflexivity | apply IH; reflexivity].
Qed.

(** The rows of the frame built from a list of dicts are the dicts. *)
Lemma iloc_pd_DataFrame (rs : list repository) (i : nat) :
  rs <> [] -> iloc (pd_DataFrame rs) i = option_map row_of (nth_error rs i).
Proof.
  destruct rs as [| r0 rs]; [congruence | intros _].
  unfold pd_DataFrame, iloc. simpl columns. simpl fold_right.
  rewrite !Series_iloc_infer. simpl Series_iloc.
  destruct i as [| i]; simpl; [reflexivity |].
  rewrite !nth_error_map.
  destruct (nth_error rs i); reflexivity.
Qed.

Lemma pd_DataFrame_index (rs : list repository) :
  index (pd_DataFrame rs) = seq 0 (length rs).
Proof. destruct rs; reflexivity. Qed.

Lemma all_int64_Some (cells : list json) (v : list Z) :
  all_int64 cells = Some v ->
  cells = map JInt v /\ Forall (fun z => in_int64 z = true) v.
Proof.
  revert v; induction cells as [| c cells IH]; intros v E; simpl in E.
  - inversion E; subst. split; [reflexivity | constructor].
  - destruct c; try discriminate.
    destruct (in_int64 z) eqn:Hz; [| discriminate].
    destruct (all_int64 cells) as [v' |]; [| discriminate].
    simpl in E. inversion E; subst.
    destruct (IH v' eq_refl) as [-> Hall].
    split; [reflexivity | constructor; assumption].
Qed.

Lemma Series_len_infer (cells : list json) :
  Series_len (infer_objects cells) = length cells.
Proof.
  unfold infer_objects. destruct (all_int64 cells) as [v |] eqn:E; [| reflexivity].
  apply all_int64_Some in E. destruct E as [-> _]. simpl. rewrite length_map. reflexivity.
Qed.

Lemma Series_ok_infer (cells : list json) : Series_ok (infer_objects cells).
Proof.
  unfold infer_objects. destruct (all_int64 cells) as [v |] eqn:E; [| exact I].
  apply all_int64_Some in E. apply E.
Qed.

(** Integer cells that fit 64 bits make an [int64] column. *)
Lemma infer_int64 (cells : list json) :
  Forall is_int64 cells -> infer_objects cells = Int64 (map int_of cells).
Proof.
  intro H. unfold infer_objects.
  assert (E : all_int64 cells = Some (map int_of cells)).
  { induction H as [| c cells [z [-> Hz]] _ IH]; simpl; [reflexivity |].
    rewrite Hz, IH. reflexivity. }
  rewrite E. reflexivity.
Qed.

(** The year of a timestamp that [strptime] accepts. *)
Lemma strptime_year_range (v : json) (y : Z) :
  strptime_year v = Ok y -> 1 <= y <= 9999.
Proof.
  destruct v; simpl; try discriminate.
  unfold Strptime.strptime.
  destruct (Strptime.matches _) as [| [f [| c rest]] ms]; simpl; try discriminate.
  destruct (Strptime.valid f) eqn:V; simpl; [| discriminate].
  intro E; inversion E; subst.
  unfold Strptime.valid in V.
  repeat (apply andb_prop in V; destruct V as [V ?]).
  lia.
Qed.

Lemma valid_record_year (repo : json) (r : repository) :
  maps_to repo r -> in_int64 (created_at r) = true.
Proof.
  intros (_ & _ & _ & _ & Hc & _). unfold created_year in Hc.
  destruct (getitem repo "created_at") as [c | |]; simpl in Hc; try discriminate.
  apply strptime_year_range in Hc.
  unfold in_int64, INT64_MIN, INT64_MAX. lia.
Qed.

Lemma pd_DataFrame_columns (rs : list repository) :
  rs <> [] ->
  columns (pd_DataFrame rs) =
    [ ("name", infer_objects (map name rs));
      ("stars", infer_objects (map stars rs));
      ("forks", infer_objects (map forks rs));
      ("issues", infer_objects (map issues rs));
      ("created_at", Int64 (map created_at rs));
      ("description", infer_objects (map description rs));
      ("owner", infer_objects (map owner rs)) ].
Proof. destruct rs; [congruence | reflexivity]. Qed.

(** The frame of valid records is a repository table. *)
Lemma pd_DataFrame_table (rs : list repository) :
  rs <> [] ->
  Forall well_typed rs ->
  Forall (fun r => in_int64 (created_at r) = true) rs ->
  RepositoryTable (pd_DataFrame rs)
    (map (fun r => int_of (stars r)) rs)
    (map (fun r => int_of (forks r)) rs)
    (map created_at rs).
Proof.
  intros Hne Ht Hy.
  assert (Hst : infer_objects (map stars rs) = Int64 (map (fun r => int_of (stars r)) rs)).
  { rewrite infer_int64, map_map; [reflexivity |].
    apply Forall_map. eapply Forall_impl; [| exact Ht]. intros r H. apply H. }
  assert (Hfk : infer_objects (map forks rs) = Int64 (map (fun r => int_of (forks r)) rs)).
  { rewrite infer_int64, map_map; [reflexivity |].
    apply Forall_map. eapply Forall_impl; [| exact Ht]. intros r H. apply H. }
  assert (Hlen : len (pd_DataFrame rs) = length rs)
    by (unfold len; rewrite pd_DataFrame_index; apply length_seq).
  pose proof (pd_DataFrame_columns rs Hne) as Hcols.
  constructor.
  - rewrite Hlen. apply pd_DataFrame_index.
  - rewrite Hlen, Hcols.
    repeat (constructor;
            [cbn [snd]; split;
             [rewrite ?Series_len_infer; cbn [Series_len]; apply length_map
             | first [apply Series_ok_infer | cbn [Series_ok]; apply Forall_map; exact Hy]] |]).
    constructor.
  - unfold getcol. rewrite Hcols, <- Hst. reflexivity.
  - unfold getcol. rewrite Hcols, <- Hfk. reflexivity.
  - unfold getcol. rewrite Hcols. reflexivity.
  - unfold getcol. rewrite Hcols. eexists; reflexivity.
  - unfold getcol. rewrite Hcols. eexists; reflexivity.
Qed.

Lemma process_data_items (data : json) (repos : list json) (rs : list repository) :
  getitem data "items" = Ok (JList repos) ->
  Forall2 maps_to repos rs ->
  process_data data = Ok (pd_DataFrame rs).
Proof.
  intros Hitems Hall. unfold process_data. rewrite Hitems. simpl.
  assert (H : for_each repository_of repos = Ok rs).
  { apply for_each_Forall2.
    eapply Forall2_impl; [| exact Hall].
    intros repo r. apply repository_of_maps_to. }
  rewrite H. reflexivity.
Qed.


Lemma valid_records_split (repos : list json) (rs : list repository) :
  Forall2 valid_record repos rs ->
  Forall2 maps_to repos rs
  /\ Forall well_typed rs
  /\ Forall (fun r => in_int64 (created_at r) = true) rs.
Proof.
  induction 1 as [| repo r repos rs [Hm Ht] _ (IH1 & IH2 & IH3)].
  - repeat split; constructor.
  - repeat split; constructor; try assumption.
    exact (valid_record_year repo r Hm).
Qed.

Lemma records3_valid : Forall2 valid_record [repo_a; repo_b; repo_c] records3.
Proof.
  unfold records3.
  repeat (apply Forall2_cons; [split; [repeat split | red; cbn [name stars forks issues description owner] ] |]);
    try apply Forall2_nil;
    repeat match goal with
      | |- _ /\ _ => split
      | |- is_str _ => eexists; reflexivity
      | |- is_int64 _ => eexists; split; reflexivity
      | |- JNull = JNull \/ _ => left; reflexivity
      | |- _ \/ is_str _ => right; eexists; reflexivity
      end.
Qed.

Lemma table3_table : RepositoryTable table3 [100; 50; 200] [10; 5; 1] [2020; 2021; 2019].
Proof.
  constructor; try reflexivity; try (eexists; reflexivity).
  repeat constructor.
Qed.

Lemma table_huge_table : RepositoryTable table_huge [2 ^ 62; 2 ^ 62] [1; 2] [2020; 2020].
Proof.
  constructor; try reflexivity; try (eexists; reflexivity).
  repeat constructor.
Qed.


Lemma table_empty_table : RepositoryTable table_empty [] [] [].
Proof.
  constructor; try reflexivity; try (eexists; reflexivity).
  repeat constructor.
Qed.

(** The summary of a table. *)
Lemma analyze_data_table (y : Z) (df : DataFrame) (st fk cr : list Z) :
  RepositoryTable df st fk cr ->
  exists nm ow,
    analyze_data y df =
      Ok {| total_repositories := len df;
            total_stars := wrap64 (fold_left Z.add st 0);
            average_stars := mean_int64 st;
            most_starred := top_frame 5 "stars" st nm ow df;
            most_forked := top_frame 5 "forks" fk nm ow df;
            average_age := PrimFloat.sub (float_of_int64 y) (mean_int64 cr) |}.
Proof.
  intro T.
  destruct (table_name _ _ _ _ T) as [nm Hnm].
  destruct (table_owner _ _ _ _ T) as [ow How].
  exists nm, ow.
  apply analyze_data_columns;
    [apply (table_stars _ _ _ _ T) | apply (table_forks _ _ _ _ T)
     | apply (table_created_at _ _ _ _ T) | exact Hnm | exact How].
Qed.

(** * The claims *)

(** ** Fetching *)

(** C3.  When the API answers with a status other than 200, the fetch fails
    with the exception of line 16 (the remote-request error of the
    specification), whose message carries the status code; the request is
    sent once and not again, and the run ends there: neither [process_data]
    nor [analyze_data] is entered. *)
Theorem non_200_aborts (w : World) (r : Response) :
  requests_get w url headers = Ok r ->
  status_code r <> 200 ->
  fst (fetch_github_data w)
    = Raise (Exception_ ("API request failed with status code: " ++ str (status_code r))%string)
  /\ gets (trace (snd (fetch_github_data w))) = gets (trace w) ++ [HttpGet url headers]
  /\ fst (main w)
    = Raise (Exception_ ("API request failed with status code: " ++ str (status_code r))%string)
  /\ trace (snd (main w)) = trace w ++ [Call "fetch_github_data"; HttpGet url headers]
  /\ (called "process_data" (trace (snd (main w))) -> called "process_data" (trace w))
  /\ (called "analyze_data" (trace (snd (main w))) -> called "analyze_data" (trace w)).
Proof.
  intros Hget Hstatus.
  apply Z.eqb_neq in Hstatus.
  assert (Hcall : call "fetch_github_data" fetch_github_data w =
            (Raise (Exception_ ("API request failed with status code: "
                                ++ str (status_code r))%string),
             {| requests_get := requests_get w; clock_year := clock_year w;
                trace := trace w ++ [Call "fetch_github_data"; HttpGet url headers] |})).
  { rewrite call_fetch, Hget, Hstatus. reflexivity. }
  assert (Hmain : main w =
            (Raise (Exception_ ("API request failed with status code: "
                                ++ str (status_code r))%string),
             {| requests_get := requests_get w; clock_year := clock_year w;
                trace := trace w ++ [Call "fetch_github_data"; HttpGet url headers] |})).
  { rewrite (main_fetch_raises w _ (f_equal fst Hcall)), Hcall. reflexivity. }
  split.
  { unfold fetch_github_data, bindIO, emit. simpl. rewrite Hget, Hstatus. reflexivity. }
  split.
  { unfold fetch_github_data, bindIO, emit. simpl. rewrite Hget, Hstatus. simpl.
    unfold gets. rewrite filter_app. reflexivity. }
  rewrite Hmain. simpl.
  split; [reflexivity |]. split; [reflexivity |].
  unfold called. split; intro H; apply in_app_or in H;
    (destruct H as [H | [H | [H | []]]]; [exact H | discriminate H | discriminate H]).
Qed.

Lemma non_200_aborts_witness :
  requests_get (world response_forbidden) url headers = Ok response_forbidden
  /\ status_code response_forbidden <> 200
  /\ fst (main (world response_forbidden))
     = Raise (Exception_ "API request failed with status code: 403")
  /\ trace (snd (main (world response_forbidden)))
     = [Call "fetch_github_data"; HttpGet url headers].
Proof.
  assert (H1 : requests_get (world response_forbidden) url headers = Ok response_forbidden)
    by reflexivity.
  assert (H2 : status_code response_forbidden <> 200) by (simpl; lia).
  split; [exact H1 |]. split; [exact H2 |].
  destruct (non_200_aborts (world response_forbidden) response_forbidden H1 H2)
    as (_ & _ & H3 & H4 & _).
  split; [exact H3 | exact H4].
Defined.

(** C5 (as stated: the fetch returns the [items] array).  For a 200 answer
    whose body is the search result [raw3], the fetch returns the whole
    object and not its [items]. *)
Lemma fetch_returns_items_counterexample :
  status_code (response_ok raw3) = 200
  /\ getitem raw3 "items" = Ok (JList [repo_a; repo_b; repo_c])
  /\ fst (fetch_github_data (world (response_ok raw3))) = Ok raw3
  /\ fst (fetch_github_data (world (response_ok raw3))) <> Ok (JList [repo_a; repo_b; repo_c]).
Proof.
  repeat split; try reflexivity. discriminate.
Qed.

(** C5 (as amended).  On a 200 answer the fetch returns the parsed body as
    it is, the enclosing object; its [items] array is read by the
    transformation, which converts the elements of [data['items']]. *)
Theorem fetch_returns_body (w : World) (r : Response) (body : json) :
  requests_get w url headers = Ok r ->
  status_code r = 200 ->
  content r = Some body ->
  fst (fetch_github_data w) = Ok body
  /\ forall repos, getitem body "items" = Ok (JList repos) ->
       process_data body =
         (repositories <- for_each repository_of repos ;; Ok (pd_DataFrame repositories)).
Proof.
  intros Hget Hstatus Hbody. split.
  - unfold fetch_github_data, bindIO, emit. simpl.
    rewrite Hget, Hstatus. simpl. unfold Response_json. rewrite Hbody. reflexivity.
  - intros repos Hitems. unfold process_data. rewrite Hitems. reflexivity.
Qed.

Lemma fetch_returns_body_witness :
  fst (fetch_github_data (world (response_ok raw3))) = Ok raw3
  /\ process_data raw3 = Ok table3.
Proof.
  destruct (fetch_returns_body (world (response_ok raw3)) (response_ok raw3) raw3
              eq_refl eq_refl eq_refl) as [H1 H2].
  split; [exact H1 |].
  rewrite (H2 [repo_a; repo_b; repo_c] eq_refl). reflexivity.
Defined.

(** ** Transformation *)



(** C6.  For a non-empty sequence of valid records (each carries the seven
    fields: strings for the name and the login, integers for the counts, a
    timestamp [strptime] accepts, a description that is a string or null),
    the transformation succeeds; the result is a repository table with one
    row per record, labelled by the record's position, and the row at a
    position holds the fields read from the record at that position. *)
Theorem process_data_maps (data : json) (repos : list json) (rs : list repository) :
  repos <> [] ->
  getitem data "items" = Ok (JList repos) ->
  Forall2 valid_record repos rs ->
  exists df,
    process_data data = Ok df
    /\ len df = length repos
    /\ index df = seq 0 (length repos)
    /\ RepositoryTable df
         (map (fun r => int_of (stars r)) rs)
         (map (fun r => int_of (forks r)) rs)
         (map created_at rs)
    /\ forall i repo,
         nth_error repos i = Some repo ->
         exists r,
           nth_error rs i = Some r /\ maps_to repo r /\ iloc df i = Some (row_of r).
Proof.
  intros Hne Hitems Hvalid.
  destruct (valid_records_split _ _ Hvalid) as (Hall & Ht & Hy).
  exists (pd_DataFrame rs).
  pose proof (Forall2_length Hall) as Hlen.
  assert (Hrs : rs <> []) by (intros ->; destruct repos; [congruence | discriminate Hlen]).
  split; [exact (process_data_items _ _ _ Hitems Hall) |].
  split; [unfold len; rewrite pd_DataFrame_index, length_seq; symmetry; exact Hlen |].
  split; [rewrite pd_DataFrame_index, Hlen; reflexivity |].
  split; [exact (pd_DataFrame_table rs Hrs Ht Hy) |].
  intros i repo Hi.
  rewrite (iloc_pd_DataFrame rs i Hrs).
  clear Hne Hitems Hlen Hrs Hvalid Ht Hy. revert i Hi.
  induction Hall as [| x r xs rs' Hx _ IH]; intros [| i] Hi; simpl in Hi; try discriminate.
  - inversion Hi; subst. exists r.
    split; [reflexivity | split; [exact Hx | reflexivity]].
  - exact (IH i Hi).
Qed.

Lemma process_data_maps_witness :
  [repo_a; repo_b; repo_c] <> []
  /\ getitem raw3 "items" = Ok (JList [repo_a; repo_b; repo_c])
  /\ Forall2 valid_record [repo_a; repo_b; repo_c] records3
  /\ exists df,
       process_data raw3 = Ok df
       /\ len df = 3%nat
       /\ index df = [0; 1; 2]%nat
       /\ RepositoryTable df [100; 50; 200] [10; 5; 1] [2020; 2021; 2019]
       /\ forall i repo,
            nth_error [repo_a; repo_b; repo_c] i = Some repo ->
            exists r,
              nth_error records3 i = Some r /\ maps_to repo r /\ iloc df i = Some (row_of r).
Proof.
  assert (Hne : [repo_a; repo_b; repo_c] <> []) by discriminate.
  split; [exact Hne |]. split; [reflexivity |]. split; [exact records3_valid |].
  exact (process_data_maps raw3 [repo_a; repo_b; repo_c] _ Hne eq_refl records3_valid).
Defined.

(** C10.  A record whose [description] is present and null is accepted like
    any other valid record: among valid records the transformation succeeds,
    and the row of that record holds the null description next to its other
    fields as they were read. *)
Theorem null_description_accepted (data : json) (pre suf : list json) (repo : json)
    (rs1 rs2 : list repository) (v_name v_stars v_forks v_issues v_login : json) (year : Z) :
  getitem data "items" = Ok (JList (pre ++ repo :: suf)) ->
  Forall2 valid_record pre rs1 ->
  Forall2 valid_record suf rs2 ->
  getitem repo "name" = Ok v_name -> is_str v_name ->
  getitem repo "stargazers_count" = Ok v_stars -> is_int64 v_stars ->
  getitem repo "forks_count" = Ok v_forks -> is_int64 v_forks ->
  getitem repo "open_issues_count" = Ok v_issues -> is_int64 v_issues ->
  created_year repo = Ok year ->
  getitem repo "description" = Ok JNull ->
  owner_login repo = Ok v_login -> is_str v_login ->
  exists df,
    process_data data = Ok df
    /\ len df = length (pre ++ repo :: suf)
    /\ iloc df (length pre)
       = Some [ ("name", v_name); ("stars", v_stars); ("forks", v_forks);
                ("issues", v_issues); ("created_at", JInt year);
                ("description", JNull); ("owner", v_login) ].
Proof.
  intros Hitems H1 H2 Hn Tn Hs Ts Hf Tf Hi Ti Hc Hd Ho To.
  set (r := {| name := v_name; stars := v_stars; forks := v_forks; issues := v_issues;
               created_at := year; description := JNull; owner := v_login |}).
  assert (Hr : valid_record repo r).
  { split; [repeat split; assumption |].
    unfold well_typed; simpl. repeat split; auto. }
  assert (Hvalid : Forall2 valid_record (pre ++ repo :: suf) (rs1 ++ r :: rs2))
    by (apply Forall2_app; [exact H1 | constructor; [exact Hr | exact H2]]).
  destruct (valid_records_split _ _ Hvalid) as (Hall & _ & _).
  exists (pd_DataFrame (rs1 ++ r :: rs2)).
  split; [exact (process_data_items _ _ _ Hitems Hall) |].
  split.
  { unfold len. rewrite pd_DataFrame_index, length_seq. symmetry. exact (Forall2_length Hall). }
  rewrite iloc_pd_DataFrame by (destruct rs1; discriminate).
  rewrite (Forall2_length H1), nth_error_app2, Nat.sub_diag by lia.
  reflexivity.
Qed.

Lemma null_description_accepted_witness :
  getitem repo_a "description" = Ok JNull
  /\ exists df,
       process_data raw3 = Ok df
       /\ len df = 3%nat
       /\ iloc df 0
          = Some [ ("name", JStr "a"); ("stars", JInt 100); ("forks", JInt 10);
                   ("issues", JInt 3); ("created_at", JInt 2020);
                   ("description", JNull); ("owner", JStr "x") ].
Proof.
  assert (Hsuf : Forall2 valid_record [repo_b; repo_c] (tl records3)).
  { pose proof records3_valid as H. inversion H; subst. assumption. }
  split; [reflexivity |].
  exact (null_description_accepted raw3 [] [repo_b; repo_c] repo_a [] _
           (JStr "a") (JInt 100) (JInt 10) (JInt 3) (JStr "x") 2020
           eq_refl (Forall2_nil _) Hsuf
           eq_refl (ex_intro _ "a" eq_refl)
           eq_refl (ex_intro _ 100 (conj eq_refl eq_refl))
           eq_refl (ex_intro _ 10 (conj eq_refl eq_refl))
           eq_refl (ex_intro _ 3 (conj eq_refl eq_refl))
           eq_refl eq_refl
           eq_refl (ex_intro _ "x" eq_refl)).
Defined.

(** ** Analysis *)

(** C1 (as stated: on the empty table the analysis fails, and returns no
    summary that contains NaN).  On a frame with the columns of a table and
    no row the analysis returns a summary, whose two averages are NaN; on
    the frame without columns that the transformation builds from no record
    it raises the [KeyError] of the lookup of the column ['stars']. *)
Lemma analyze_empty_counterexample :
  len table_empty = 0%nat
  /\ (exists s,
        analyze_data 2026 table_empty = Ok s
        /\ total_repositories s = 0%nat
        /\ PrimFloat.is_nan (average_stars s) = true
        /\ PrimFloat.is_nan (average_age s) = true)
  /\ process_data (search_result []) = Ok (pd_DataFrame [])
  /\ len (pd_DataFrame []) = 0%nat
  /\ analyze_data 2026 (pd_DataFrame []) = Raise (KeyError "stars").
Proof.
  split; [reflexivity |].
  split; [eexists; split; [reflexivity |]; repeat split; reflexivity |].
  repeat split; reflexivity.
Qed.

(** C1 (as amended).  The analysis does not check for an empty table and
    raises no error of its own for one.  On the frame that the
    transformation builds from an empty [items] array, which has no columns,
    it raises the [KeyError] of the lookup of ['stars'] and returns no
    summary.  On a table without rows that has its columns it returns a
    summary: no repository, no star, empty top-5 frames, and a NaN average
    of the stars. *)
Theorem analyze_empty_table (y : Z) (data : json) (df : DataFrame) (st fk cr : list Z) :
  getitem data "items" = Ok (JList []) ->
  RepositoryTable df st fk cr ->
  len df = 0%nat ->
  (exists df0,
     process_data data = Ok df0
     /\ len df0 = 0%nat
     /\ analyze_data y df0 = Raise (KeyError "stars"))
  /\ (exists s,
        analyze_data y df = Ok s
        /\ total_repositories s = 0%nat
        /\ total_stars s = 0
        /\ PrimFloat.is_nan (average_stars s) = true
        /\ len (most_starred s) = 0%nat
        /\ len (most_forked s) = 0%nat).
Proof.
  intros Hitems T Hlen. split.
  - exists (pd_DataFrame []). split; [| split; reflexivity].
    unfold process_data. rewrite Hitems. reflexivity.
  - destruct (analyze_data_table y df st fk cr T) as (nm & ow & Hs).
    pose proof (table_column_length _ _ _ _ _ _ T (table_stars _ _ _ _ T)) as Hst.
    pose proof (table_column_length _ _ _ _ _ _ T (table_forks _ _ _ _ T)) as Hfk.
    simpl in Hst, Hfk. rewrite Hlen in Hst, Hfk.
    apply length_zero_iff_nil in Hst, Hfk. subst st fk.
    eexists. split; [exact Hs |]. simpl.
    repeat split; try reflexivity. exact Hlen.
Qed.

Lemma analyze_empty_table_witness :
  getitem (search_result []) "items" = Ok (JList [])
  /\ RepositoryTable table_empty [] [] []
  /\ len table_empty = 0%nat
  /\ (exists df0,
        process_data (search_result []) = Ok df0
        /\ len df0 = 0%nat
        /\ analyze_data 2026 df0 = Raise (KeyError "stars"))
  /\ (exists s,
        analyze_data 2026 table_empty = Ok s
        /\ total_repositories s = 0%nat
        /\ total_stars s = 0
        /\ PrimFloat.is_nan (average_stars s) = true
        /\ len (most_starred s) = 0%nat
        /\ len (most_forked s) = 0%nat).
Proof.
  split; [reflexivity |]. split; [exact table_empty_table |]. split; [reflexivity |].
  exact (analyze_empty_table 2026 (search_result []) table_empty [] [] []
           eq_refl table_empty_table eq_refl).
Defined.

(** C2.  For a non-empty table the analysis returns a summary whose
    [most_starred] and [most_forked] each hold [min 5 total_repositories]
    rows of the table, in descending order of the stars (of the forks), such
    that no row left out has more stars (forks) than a row taken. *)
Theorem top5_correct (y : Z) (df : DataFrame) (st fk cr : list Z) :
  RepositoryTable df st fk cr ->
  len df <> 0%nat ->
  exists s,
    analyze_data y df = Ok s
    /\ total_repositories s = len df
    /\ len (most_starred s) = Nat.min 5 (total_repositories s)
    /\ len (most_forked s) = Nat.min 5 (total_repositories s)
    /\ top_k_of 5 "stars" st df (most_starred s)
    /\ top_k_of 5 "forks" fk df (most_forked s).
Proof.
  intros T _.
  destruct (analyze_data_table y df st fk cr T) as (nm & ow & Hs).
  pose proof (table_column_length _ _ _ _ _ _ T (table_stars _ _ _ _ T)) as Hst.
  pose proof (table_column_length _ _ _ _ _ _ T (table_forks _ _ _ _ T)) as Hfk.
  simpl in Hst, Hfk.
  pose proof (table_index _ _ _ _ T) as Hidx.
  assert (Ts : top_k_of 5 "stars" st df (top_frame 5 "stars" st nm ow df))
    by (apply top_frame_top_k; [discriminate | exact Hidx | exact Hst]).
  assert (Tf : top_k_of 5 "forks" fk df (top_frame 5 "forks" fk nm ow df))
    by (apply top_frame_top_k; [discriminate | exact Hidx | exact Hfk]).
  eexists. split; [exact Hs |]. simpl.
  split; [reflexivity |].
  split; [exact (proj1 Ts) |]. split; [exact (proj1 Tf) |].
  split; [exact Ts | exact Tf].
Qed.

Lemma top5_correct_witness :
  RepositoryTable table3 [100; 50; 200] [10; 5; 1] [2020; 2021; 2019]
  /\ len table3 <> 0%nat
  /\ exists s,
       analyze_data 2026 table3 = Ok s
       /\ total_repositories s = len table3
       /\ len (most_starred s) = Nat.min 5 (total_repositories s)
       /\ len (most_forked s) = Nat.min 5 (total_repositories s)
       /\ top_k_of 5 "stars" [100; 50; 200] table3 (most_starred s)
       /\ top_k_of 5 "forks" [10; 5; 1] table3 (most_forked s).
Proof.
  assert (Hne : len table3 <> 0%nat) by discriminate.
  split; [exact table3_table |]. split; [exact Hne |].
  exact (top5_correct 2026 table3 _ _ _ table3_table Hne).
Defined.

(** C7 (as stated: [total_stars] is the exact sum of the stars).  The two
    repositories of [raw_huge] have [2^62] stars each; the transformation
    stores them in an [int64] column, whose sum wraps around to [-2^63]. *)
Lemma total_stars_counterexample :
  process_data raw_huge = Ok table_huge
  /\ RepositoryTable table_huge [2 ^ 62; 2 ^ 62] [1; 2] [2020; 2020]
  /\ len table_huge <> 0%nat
  /\ exact_sum [2 ^ 62; 2 ^ 62] = 2 ^ 63
  /\ exists s,
       analyze_data 2026 table_huge = Ok s
       /\ total_stars s = - 2 ^ 63
       /\ total_stars s <> exact_sum [2 ^ 62; 2 ^ 62].
Proof.
  split; [reflexivity |]. split; [exact table_huge_table |].
  split; [discriminate |]. split; [reflexivity |].
  eexists. split; [reflexivity |]. split; [reflexivity | discriminate].
Qed.

(** C7 (as amended).  For a non-empty table, [total_stars] is the sum of the
    stars in 64-bit two's-complement arithmetic; it is the exact sum
    whenever that sum fits 64 bits. *)
Theorem total_stars_sum (y : Z) (df : DataFrame) (st fk cr : list Z) :
  RepositoryTable df st fk cr ->
  len df <> 0%nat ->
  exists s,
    analyze_data y df = Ok s
    /\ total_stars s = wrap64 (exact_sum st)
    /\ (INT64_MIN <= exact_sum st <= INT64_MAX -> total_stars s = exact_sum st).
Proof.
  intros T _.
  destruct (analyze_data_table y df st fk cr T) as (nm & ow & Hs).
  eexists. split; [exact Hs |]. simpl.
  rewrite fold_left_add, Z.add_0_l.
  split; [reflexivity | apply wrap64_small].
Qed.

Lemma total_stars_sum_witness :
  RepositoryTable table3 [100; 50; 200] [10; 5; 1] [2020; 2021; 2019]
  /\ len table3 <> 0%nat
  /\ exists s,
       analyze_data 2026 table3 = Ok s
       /\ total_stars s = wrap64 (exact_sum [100; 50; 200])
       /\ (INT64_MIN <= exact_sum [100; 50; 200] <= INT64_MAX ->
           total_stars s = exact_sum [100; 50; 200]).
Proof.
  assert (Hne : len table3 <> 0%nat) by discriminate.
  split; [exact table3_table |]. split; [exact Hne |].
  exact (total_stars_sum 2026 table3 _ _ _ table3_table Hne).
Defined.






(** The rows that the analysis takes from [table_ties]: the five rows with 9
    stars in the order of the table, and the first five of the rows with one
    fork. *)
Example table_ties_top5 :
  exists s,
    analyze_data 2026 table_ties = Ok s
    /\ index (most_starred s) = [1; 3; 4; 5; 6]%nat
    /\ index (most_forked s) = [0; 1; 2; 3; 4]%nat.
Proof. eexists. repeat split; reflexivity. Qed.

(** The scenario of three repositories with 100, 50 and 200 stars. *)
Example table3_summary :
  exists s,
    analyze_data 2026 table3 = Ok s
    /\ total_repositories s = 3%nat
    /\ total_stars s = 350
    /\ getcol (most_starred s) "stars" = Ok (Int64 [200; 100; 50])
    /\ PrimFloat.ltb 116.66015625 (average_stars s) = true
    /\ PrimFloat.ltb (average_stars s) 116.671875 = true.
Proof. eexists. repeat split; reflexivity. Qed.

(** * Further properties *)

(** ** Runs of [main] *)

Lemma emit_log (e : event) (w : World) : emit e w = (Ok tt, log [e] w).
Proof. reflexivity. Qed.

Lemma log_log (es1 es2 : list event) (w : World) :
  log es2 (log es1 w) = log (es1 ++ es2) w.
Proof. unfold log; simpl. rewrite app_assoc. reflexivity. Qed.

Lemma call_fetch_log (w : World) :
  snd (call "fetch_github_data" fetch_github_data w)
  = log [Call "fetch_github_data"; HttpGet url headers] w.
Proof. rewrite call_fetch. reflexivity. Qed.

Lemma call_fetch_fst (w : World) :
  fst (call "fetch_github_data" fetch_github_data w) = fst (fetch_github_data w).
Proof.
  rewrite call_fetch. unfold fetch_github_data, bindIO, emit. simpl.
  destruct (requests_get w url headers) as [r | e |]; [| reflexivity ..].
  destruct (status_code r =? 200); reflexivity.
Qed.


(** A run in which the analysis raises stops there. *)
Lemma main_analysis_raises (w : World) (data : json) (df : DataFrame) (e : exn) :
  fst (fetch_github_data w) = Ok data ->
  process_data data = Ok df ->
  analyze_data (clock_year w) df = Raise e ->
  main w = (Raise e, log prologue w).
Proof.
  intros Hf Hp Ha. rewrite <- call_fetch_fst in Hf.
  unfold main. rewrite bindIO_run.
  pose proof (call_fetch_log w) as Hw.
  destruct (call "fetch_github_data" fetch_github_data w) as [r w1].
  simpl in Hf, Hw. subst r w1.
  rewrite bindIO_run. unfold call at 1. rewrite bindIO_run, emit_log, log_log.
  unfold lift at 1. rewrite Hp.
  rewrite bindIO_run. unfold call at 1. rewrite bindIO_run, emit_log, log_log.
  cbn [clock_year log]. rewrite Ha.
  reflexivity.
Qed.

(** X1.  Whatever exception the fetch raises (the network's, the one of a
    body that is not JSON, the one of line 16), the run raises it and ends
    there: the request has been sent, and no other function of the script
    is entered. *)
Theorem fetch_failure_aborts (w : World) (e : exn) :
  fst (fetch_github_data w) = Raise e ->
  main w = (Raise e, log [Call "fetch_github_data"; HttpGet url headers] w).
Proof.
  intro H. rewrite <- call_fetch_fst in H.
  rewrite (main_fetch_raises w e H), call_fetch_log. reflexivity.
Qed.

Lemma fetch_failure_aborts_witness :
  fst (fetch_github_data (world response_not_json)) = Raise JSONDecodeError
  /\ main (world response_not_json)
     = (Raise JSONDecodeError,
        log [Call "fetch_github_data"; HttpGet url headers] (world response_not_json)).
Proof.
  split; [reflexivity |].
  exact (fetch_failure_aborts (world response_not_json) JSONDecodeError eq_refl).
Defined.

Ltac one_request G :=
  eapply G; [cbn [snd log trace]; rewrite <- ?app_assoc; cbn [app]; reflexivity | reflexivity].

(** X2.  Every run sends one GET request, to the search URL with the
    [Accept] header, and no other, whatever the answer is and wherever the
    run ends. *)
Theorem main_one_request (w : World) :
  gets (trace (snd (main w))) = gets (trace w) ++ [HttpGet url headers].
Proof.
  assert (G : forall w' es,
            trace w' = trace w ++ es -> gets es = [HttpGet url headers] ->
            gets (trace w') = gets (trace w) ++ [HttpGet url headers]).
  { intros w' es Ht Hes. rewrite Ht. unfold gets in *. rewrite filter_app, Hes. reflexivity. }
  unfold main. rewrite bindIO_run.
  pose proof (call_fetch_log w) as Hw.
  destruct (call "fetch_github_data" fetch_github_data w) as [r w1].
  simpl in Hw. subst w1.
  destruct r as [data | e |]; [| one_request G ..].
  rewrite bindIO_run. unfold call at 1. rewrite bindIO_run, emit_log.
  unfold lift at 1.
  destruct (process_data data) as [df | e |]; [| one_request G ..].
  rewrite bindIO_run. unfold call at 1. rewrite bindIO_run, emit_log.
  destruct (analyze_data _ df) as [s | e |]; [| one_request G ..].
  repeat (rewrite bindIO_run, emit_log).
  unfold call, create_visualizations.
  rewrite bindIO_run, emit_log.
  rewrite bindIO_run. unfold lift at 1.
  destruct (nlargest 10 "stars" df) as [top | e |]; [| one_request G ..].
  rewrite bindIO_run, emit_log.
  rewrite bindIO_run. unfold lift at 1.
  destruct (getcol df "forks") as [cf | e |]; [| one_request G ..].
  rewrite bindIO_run. unfold lift at 1.
  destruct (getcol df "stars") as [cs | e |]; [| one_request G ..].
  rewrite bindIO_run, !emit_log.
  one_request G.
Qed.

(** ** The transformation *)

Lemma for_each_cases (repos : list json) :
  (exists rs, for_each repository_of repos = Ok rs)
  \/ (exists e, for_each repository_of repos = Raise e /\ record_error e).
Proof.
  induction repos as [| x repos IH]; simpl; [left; eauto |].
  destruct (repository_of_cases x) as [[r Hr] | [e [He Hk]]].
  - rewrite Hr; simpl. destruct IH as [[rs Hrs] | [e [He Hk]]]; rewrite ?Hrs, ?He; simpl; eauto.
  - rewrite He; simpl. eauto.
Qed.

Lemma iter_cases (o : json) :
  (exists l, iter o = Ok l) \/ iter o = Raise TypeError.
Proof. destruct o; simpl; eauto. Qed.

(** X3.  The transformation succeeds exactly when the answer has an [items]
    entry that can be iterated and every element converts; the frame is then
    the one of the converted records, in their order. *)
Theorem process_data_ok_iff (data : json) (df : DataFrame) :
  process_data data = Ok df <->
  exists items repos rs,
    getitem data "items" = Ok items
    /\ iter items = Ok repos
    /\ Forall2 maps_to repos rs
    /\ df = pd_DataFrame rs.
Proof.
  unfold process_data. split.
  - intro H.
    apply bind_Ok in H. destruct H as [items [Hi H]].
    apply bind_Ok in H. destruct H as [repos [Hr H]].
    apply bind_Ok in H. destruct H as [rs [Hrs H]].
    inversion H; subst. exists items, repos, rs.
    repeat split; try assumption.
    apply for_each_Forall2 in Hrs.
    eapply Forall2_impl; [| exact Hrs]. intros a b. apply repository_of_maps_to.
  - intros (items & repos & rs & Hi & Hr & Hall & ->).
    rewrite Hi; simpl. rewrite Hr; simpl.
    assert (H : for_each repository_of repos = Ok rs).
    { apply for_each_Forall2. eapply Forall2_impl; [| exact Hall].
      intros a b. apply repository_of_maps_to. }
    rewrite H. reflexivity.
Qed.

(** X4.  The transformation returns a frame or raises a [KeyError], a
    [TypeError] or a [ValueError]; it raises nothing else. *)
Theorem process_data_errors (data : json) :
  (exists df, process_data data = Ok df)
  \/ (exists e, process_data data = Raise e /\ record_error e).
Proof.
  unfold process_data.
  destruct (getitem data "items") as [items | e |] eqn:Hi; simpl.
  - destruct (iter_cases items) as [[repos Hr] | Hr]; rewrite Hr; simpl.
    + destruct (for_each_cases repos) as [[rs Hrs] | [e [He Hk]]];
        rewrite ?Hrs, ?He; simpl; eauto.
    + right. eexists. split; [reflexivity | left; reflexivity].
  - right. exists e. split; [reflexivity | exact (record_error_getitem _ _ _ Hi)].
  - exfalso. exact (getitem_modelled _ _ Hi).
Qed.

(** X5.  The exception of the transformation is the one of the first record
    that does not convert, whatever the records after it are. *)
Theorem process_data_first_error (data : json) (pre suf : list json) (bad : json)
    (rs : list repository) (e : exn) :
  getitem data "items" = Ok (JList (pre ++ bad :: suf)) ->
  Forall2 maps_to pre rs ->
  repository_of bad = Raise e ->
  process_data data = Raise e.
Proof.
  intros Hi Hpre Hbad. unfold process_data. rewrite Hi. simpl.
  assert (H : for_each repository_of (pre ++ bad :: suf) = Raise e).
  { clear Hi. induction Hpre as [| x r xs rs' Hx _ IH]; simpl.
    - rewrite Hbad. reflexivity.
    - apply repository_of_maps_to in Hx. rewrite Hx; simpl. rewrite IH. reflexivity. }
  rewrite H. reflexivity.
Qed.

Lemma process_data_first_error_witness :
  repository_of repo_no_stars = Raise (KeyError "stargazers_count")
  /\ repository_of JNull = Raise TypeError
  /\ process_data (search_result [repo_a; repo_no_stars; JNull])
     = Raise (KeyError "stargazers_count").
Proof.
  split; [reflexivity |]. split; [reflexivity |].
  assert (Hpre : Forall2 maps_to [repo_a] (firstn 1 records3))
    by (constructor; [repeat split | constructor]).
  exact (process_data_first_error (search_result [repo_a; repo_no_stars; JNull])
           [repo_a] [JNull] repo_no_stars _ (KeyError "stargazers_count")
           eq_refl Hpre eq_refl).
Defined.

(** X6.  The conversion of a record reads its seven keys and nothing else:
    two records that agree on them convert alike, whatever their other keys
    and the order of their keys. *)
Theorem repository_of_reads_keys (d d' : list (string * json)) :
  (forall k, In k record_keys -> lookup k d = lookup k d') ->
  repository_of (JDict d) = repository_of (JDict d').
Proof.
  intro H. unfold repository_of, getitem.
  rewrite !(H "name"), !(H "stargazers_count"), !(H "forks_count"),
    !(H "open_issues_count"), !(H "created_at"), !(H "description"), !(H "owner")
    by (unfold record_keys; simpl; tauto).
  reflexivity.
Qed.

Lemma repository_of_reads_keys_witness :
  repository_of repo_a_shuffled = repository_of repo_a
  /\ repository_of repo_a = Ok (hd (Build_repository JNull JNull JNull JNull 0 JNull JNull) records3).
Proof.
  split; [| reflexivity].
  unfold repo_a_shuffled, repo_a, raw_repository.
  apply repository_of_reads_keys.
  intros k Hk. unfold record_keys in Hk. simpl in Hk.
  decompose [or] Hk; subst; try reflexivity; contradiction.
Defined.

(** X7.  A frame that the transformation returns is well formed: its labels
    are the positions, every column is as long as the index, an [int64]
    column holds 64-bit values; it has no column when there is no record and
    otherwise the seven columns of lines 24-30, in that order; and its
    [created_at] cells are years between 1 and 9999. *)
Theorem process_data_shape (data : json) (df : DataFrame) :
  process_data data = Ok df ->
  index df = seq 0 (len df)
  /\ Forall (fun cs => Series_len (snd cs) = len df /\ Series_ok (snd cs)) (columns df)
  /\ ((len df = 0%nat /\ columns df = [])
      \/ (len df <> 0%nat /\ map fst (columns df) = frame_columns))
  /\ (forall s, getcol df "created_at" = Ok s ->
      exists cr, s = Int64 cr /\ Forall (fun y => 1 <= y <= 9999) cr).
Proof.
  intro H. apply process_data_ok_iff in H.
  destruct H as (items & repos & rs & _ & _ & Hall & ->).
  assert (Hy : Forall (fun r => 1 <= created_at r <= 9999) rs).
  { clear - Hall. induction Hall as [| repo r repos rs Hm _ IH]; constructor; [| exact IH].
    destruct Hm as (_ & _ & _ & _ & Hc & _). unfold created_year in Hc.
    destruct (getitem repo "created_at") as [c | |]; simpl in Hc; try discriminate.
    exact (strptime_year_range _ _ Hc). }
  assert (Hlen : len (pd_DataFrame rs) = length rs)
    by (unfold len; rewrite pd_DataFrame_index; apply length_seq).
  split; [rewrite Hlen; apply pd_DataFrame_index |].
  destruct rs as [| r0 rs']; [repeat split; [constructor | left; split; reflexivity | discriminate] |].
  set (rs := r0 :: rs') in *.
  assert (Hne : rs <> []) by discriminate.
  rewrite Hlen, (pd_DataFrame_columns rs Hne).
  split.
  { repeat (constructor;
            [cbn [snd]; split;
             [rewrite ?Series_len_infer; cbn [Series_len]; apply length_map
             | first [apply Series_ok_infer | cbn [Series_ok] ] ] |]);
      [| constructor].
    apply Forall_map. eapply Forall_impl; [| exact Hy].
    intros r Hr. cbv beta in Hr. unfold in_int64, INT64_MIN, INT64_MAX. lia. }
  split; [right; split; [discriminate | reflexivity] |].
  intros s Hs. unfold getcol in Hs. rewrite (pd_DataFrame_columns rs Hne) in Hs.
  simpl in Hs. inversion Hs; subst.
  eexists. split; [reflexivity |].
  change (Forall (fun y => 1 <= y <= 9999) (map created_at rs)).
  apply Forall_map. exact Hy.
Qed.

Lemma process_data_shape_witness :
  process_data raw3 = Ok table3
  /\ index table3 = seq 0 (len table3)
  /\ Forall (fun cs => Series_len (snd cs) = len table3 /\ Series_ok (snd cs)) (columns table3)
  /\ ((len table3 = 0%nat /\ columns table3 = [])
      \/ (len table3 <> 0%nat /\ map fst (columns table3) = frame_columns))
  /\ (forall s, getcol table3 "created_at" = Ok s ->
      exists cr, s = Int64 cr /\ Forall (fun y => 1 <= y <= 9999) cr).
Proof.
  split; [reflexivity |].
  exact (process_data_shape raw3 table3 eq_refl).
Defined.

(** X8.  When [items] is not a list the loop still iterates it: over the
    keys of a dict and the characters of a string, none of which can be
    subscripted by a key, so that a non-empty dict or string raises
    [TypeError] and an empty one gives the frame without columns; any other
    object cannot be iterated and raises [TypeError]. *)
Theorem process_data_items_not_list (data items : json) :
  getitem data "items" = Ok items ->
  (forall l, items <> JList l) ->
  process_data data =
    match items with
    | JDict [] => Ok (pd_DataFrame [])
    | JStr EmptyString => Ok (pd_DataFrame [])
    | _ => Raise TypeError
    end.
Proof.
  intros Hi Hl. unfold process_data. rewrite Hi. simpl.
  destruct items as [| b | z | f | s | l | d]; try reflexivity.
  - destruct s; reflexivity.
  - exfalso. exact (Hl l eq_refl).
  - destruct d as [| [k v] d]; reflexivity.
Qed.

Lemma process_data_items_not_list_witness :
  process_data (JDict [("items", JDict [("message", JStr "Not Found")])]) = Raise TypeError
  /\ process_data (JDict [("items", JDict [])]) = Ok (pd_DataFrame []).
Proof.
  split.
  - apply (process_data_items_not_list
             (JDict [("items", JDict [("message", JStr "Not Found")])])
             (JDict [("message", JStr "Not Found")]) eq_refl).
    intros l H; discriminate H.
  - apply (process_data_items_not_list (JDict [("items", JDict [])]) (JDict []) eq_refl).
    intros l H; discriminate H.
Defined.

(** ** The timestamp parser *)

Lemma matches_after_Y (s : list ascii) :
  Strptime.matches s =
    Strptime.then_ (Strptime.dir_Y s) (fun '(year, s) =>
    Strptime.then_ (Strptime.lit "-" "-" s) (after_Y year)).
Proof. reflexivity. Qed.

Ltac enum_nat n :=
  repeat first
    [ exfalso; lia
    | destruct n as [| n];
      [first [exfalso; lia
             | vm_compute;
               match goal with |- @eq (list ?T) _ _ => fold (@app T) end;
               rewrite ?app_nil_r; reflexivity] |] ].

Section Stages.

Local Open Scope char_scope.

Variable B : Type.
Variable g : Z -> list ascii -> list B.
Variable rest : list ascii.

Lemma stage_m (m : Z) :
  1 <= m <= 12 ->
  Strptime.then_ (Strptime.dir_m (fmt2 m ++ "-" :: rest))
    (fun '(v, s) => Strptime.then_ (Strptime.lit "-" "-" s) (g v)) = g m rest.
Proof.
  intro H. rewrite <- (Z2Nat.id m) by lia.
  assert (Hn : (1 <= Z.to_nat m < 13)%nat) by lia.
  generalize dependent (Z.to_nat m). clear H. intros n Hn.
  enum_nat n.
Qed.

Lemma stage_d (d : Z) :
  1 <= d <= 31 ->
  Strptime.then_ (Strptime.dir_d (fmt2 d ++ "T" :: rest))
    (fun '(v, s) => Strptime.then_ (Strptime.lit "t" "T" s) (g v)) = g d rest.
Proof.
  intro H. rewrite <- (Z2Nat.id d) by lia.
  assert (Hn : (1 <= Z.to_nat d < 32)%nat) by lia.
  generalize dependent (Z.to_nat d). clear H. intros n Hn.
  enum_nat n.
Qed.

Lemma stage_H (h : Z) :
  0 <= h <= 23 ->
  Strptime.then_ (Strptime.dir_H (fmt2 h ++ ":" :: rest))
    (fun '(v, s) => Strptime.then_ (Strptime.lit ":" ":" s) (g v)) = g h rest.
Proof.
  intro H. rewrite <- (Z2Nat.id h) by lia.
  assert (Hn : (Z.to_nat h < 24)%nat) by lia.
  generalize dependent (Z.to_nat h). clear H. intros n Hn.
  enum_nat n.
Qed.

Lemma stage_M (m : Z) :
  0 <= m <= 59 ->
  Strptime.then_ (Strptime.dir_M (fmt2 m ++ ":" :: rest))
    (fun '(v, s) => Strptime.then_ (Strptime.lit ":" ":" s) (g v)) = g m rest.
Proof.
  intro H. rewrite <- (Z2Nat.id m) by lia.
  assert (Hn : (Z.to_nat m < 60)%nat) by lia.
  generalize dependent (Z.to_nat m). clear H. intros n Hn.
  enum_nat n.
Qed.

Lemma stage_S (sec : Z) :
  0 <= sec <= 59 ->
  Strptime.then_ (Strptime.dir_S (fmt2 sec ++ "Z" :: rest))
    (fun '(v, s) => Strptime.then_ (Strptime.lit "z" "Z" s) (g v)) = g sec rest.
Proof.
  intro H. rewrite <- (Z2Nat.id sec) by lia.
  assert (Hn : (Z.to_nat sec < 60)%nat) by lia.
  generalize dependent (Z.to_nat sec). clear H. intros n Hn.
  enum_nat n.
Qed.

End Stages.

Lemma digit_char_digit (d : Z) :
  0 <= d <= 9 ->
  Strptime.is_digit (digit_char d) = true /\ Strptime.digit (digit_char d) = d.
Proof.
  intro H. rewrite <- (Z2Nat.id d) by lia.
  assert (Hn : (Z.to_nat d < 10)%nat) by lia.
  generalize dependent (Z.to_nat d). clear H. intros n Hn.
  repeat first [exfalso; lia | destruct n as [| n]; [split; reflexivity |]].
Qed.

Lemma stage_Y {B} (g : Z -> list ascii -> list B) (rest : list ascii) (y : Z) :
  0 <= y <= 9999 ->
  Strptime.then_ (Strptime.dir_Y (fmt4 y ++ "-"%char :: rest))
    (fun '(v, s) => Strptime.then_ (Strptime.lit "-" "-" s) (g v)) = g y rest.
Proof.
  intro H. unfold fmt4. cbn [app]. unfold Strptime.dir_Y.
  assert (H1 : 0 <= y / 1000 < 10)
    by (split; [apply Z.div_pos; lia | apply Z.div_lt_upper_bound; lia]).
  destruct (digit_char_digit (y / 1000)) as [I1 D1]; [lia |].
  destruct (digit_char_digit (y / 100 mod 10)) as [I2 D2];
    [pose proof (Z.mod_pos_bound (y / 100) 10); lia |].
  destruct (digit_char_digit (y / 10 mod 10)) as [I3 D3];
    [pose proof (Z.mod_pos_bound (y / 10) 10); lia |].
  destruct (digit_char_digit (y mod 10)) as [I4 D4];
    [pose proof (Z.mod_pos_bound y 10); lia |].
  rewrite I1, I2, I3, I4, D1, D2, D3, D4.
  cbn [andb Strptime.then_ flat_map Strptime.lit].
  change (Ascii.eqb "-" "-") with true. cbn [orb flat_map].
  rewrite !app_nil_r. f_equal.
  clear. 
  pose proof (Z.div_mod y 10 ltac:(lia)).
  pose proof (Z.div_mod (y / 10) 10 ltac:(lia)).
  pose proof (Z.div_mod (y / 100) 10 ltac:(lia)).
  replace (y / 100) with (y / 10 / 10) in * by (rewrite Z.div_div by lia; reflexivity).
  replace (y / 1000) with (y / 10 / 10 / 10) in * by (rewrite !Z.div_div by lia; reflexivity).
  lia.
Qed.

(** X9.  The timestamp parser accepts every timestamp written in the format
    [YYYY-MM-DDTHH:MM:SSZ] for a date of the calendar and a time of the day,
    and returns the fields it was written from; the year of such a timestamp
    is its first four digits. *)
Theorem strptime_isoformat (f : Strptime.fields) :
  Strptime.valid f = true ->
  Strptime.strptime (isoformat f) = Ok f
  /\ strptime_year (JStr (isoformat f)) = Ok (Strptime.tm_year f).
Proof.
  intro V.
  assert (E : Strptime.strptime (isoformat f) = Ok f).
  { pose proof V as V'. unfold Strptime.valid in V'.
    repeat (apply andb_prop in V'; destruct V' as [V' ?]).
    assert (Hd : Strptime.tm_mday f <= 31).
    { assert (Strptime.days_in_month (Strptime.tm_year f) (Strptime.tm_mon f) <= 31).
      { unfold Strptime.days_in_month.
        repeat match goal with |- context [if ?b then _ else _] => destruct b end; lia. }
      lia. }
    unfold Strptime.strptime, isoformat.
    rewrite list_ascii_of_string_of_list_ascii, matches_after_Y.
    rewrite stage_Y by lia. unfold after_Y.
    rewrite stage_m by lia. unfold after_m.
    rewrite stage_d by lia. unfold after_d.
    rewrite stage_H by lia. unfold after_H.
    rewrite stage_M by lia. unfold after_M.
    rewrite stage_S by lia. unfold after_S.
    destruct f as [y m d h mi sec]. cbn [Strptime.tm_year Strptime.tm_mon Strptime.tm_mday
      Strptime.tm_hour Strptime.tm_min Strptime.tm_sec].
    rewrite V. reflexivity. }
  split; [exact E |].
  unfold strptime_year. rewrite E. reflexivity.
Qed.

Lemma strptime_isoformat_witness :
  Strptime.valid (Strptime.Build_fields 2020 2 29 23 59 59) = true
  /\ isoformat (Strptime.Build_fields 2020 2 29 23 59 59) = "2020-02-29T23:59:59Z"
  /\ Strptime.strptime (isoformat (Strptime.Build_fields 2020 2 29 23 59 59))
     = Ok (Strptime.Build_fields 2020 2 29 23 59 59)
  /\ strptime_year (JStr (isoformat (Strptime.Build_fields 2020 2 29 23 59 59))) = Ok 2020.
Proof.
  split; [reflexivity |]. split; [reflexivity |].
  exact (strptime_isoformat (Strptime.Build_fields 2020 2 29 23 59 59) eq_refl).
Defined.

(** ** From the records to the report *)



(** X10.  The transformation hands the analysis what it needs: for a
    non-empty sequence of valid records the analysis of the frame of the
    transformation returns a summary, whose [total_repositories] is the
    number of records and whose [total_stars] is the 64-bit sum of their
    [stargazers_count]. *)
Theorem pipeline_valid_records (y : Z) (data : json) (repos : list json)
    (rs : list repository) :
  repos <> [] ->
  getitem data "items" = Ok (JList repos) ->
  Forall2 valid_record repos rs ->
  exists df s,
    process_data data = Ok df
    /\ analyze_data y df = Ok s
    /\ total_repositories s = length repos
    /\ total_stars s = wrap64 (exact_sum (map (fun r => int_of (stars r)) rs)).
Proof.
  intros Hne Hitems Hvalid.
  destruct (valid_records_split _ _ Hvalid) as (Hall & Ht & Hy).
  pose proof (Forall2_length Hall) as Hlen.
  assert (Hrs : rs <> []) by (intros ->; destruct repos; [congruence | discriminate Hlen]).
  pose proof (pd_DataFrame_table rs Hrs Ht Hy) as T.
  destruct (analyze_data_table y _ _ _ _ T) as (nm & ow & Hs).
  exists (pd_DataFrame rs). eexists.
  split; [exact (process_data_items _ _ _ Hitems Hall) |].
  split; [exact Hs |]. cbn [total_repositories total_stars].
  split.
  - unfold len. rewrite pd_DataFrame_index, length_seq. symmetry. exact Hlen.
  - rewrite fold_left_add, Z.add_0_l. reflexivity.
Qed.

Lemma pipeline_valid_records_witness :
  [repo_a; repo_b; repo_c] <> []
  /\ Forall2 valid_record [repo_a; repo_b; repo_c] records3
  /\ exists df s,
       process_data raw3 = Ok df
       /\ analyze_data 2026 df = Ok s
       /\ total_repositories s = 3%nat
       /\ total_stars s = wrap64 (exact_sum (map (fun r => int_of (stars r)) records3)).
Proof.
  assert (Hne : [repo_a; repo_b; repo_c] <> []) by discriminate.
  split; [exact Hne |]. split; [exact records3_valid |].
  exact (pipeline_valid_records 2026 raw3 _ _ Hne eq_refl records3_valid).
Defined.



(** X12.  When the analysis raises, the run raises the same exception and
    ends there: nothing is printed and no chart is drawn. *)
Theorem analysis_failure_aborts (w : World) (data : json) (df : DataFrame) (e : exn) :
  fst (fetch_github_data w) = Ok data ->
  process_data data = Ok df ->
  analyze_data (clock_year w) df = Raise e ->
  fst (main w) = Raise e
  /\ trace (snd (main w)) = trace w ++ prologue.
Proof.
  intros Hf Hp Ha. rewrite (main_analysis_raises w data df e Hf Hp Ha).
  split; reflexivity.
Qed.

Lemma analysis_failure_aborts_witness :
  fst (fetch_github_data (world (response_ok (search_result [])))) = Ok (search_result [])
  /\ process_data (search_result []) = Ok (pd_DataFrame [])
  /\ analyze_data 2026 (pd_DataFrame []) = Raise (KeyError "stars")
  /\ fst (main (world (response_ok (search_result [])))) = Raise (KeyError "stars")
  /\ trace (snd (main (world (response_ok (search_result []))))) = [] ++ prologue.
Proof.
  split; [reflexivity |]. split; [reflexivity |]. split; [reflexivity |].
  exact (analysis_failure_aborts (world (response_ok (search_result []))) (search_result [])
           (pd_DataFrame []) (KeyError "stars") eq_refl eq_refl eq_refl).
Defined.

(** X13.  A 200 answer whose [items] array is empty makes the script fail:
    the transformation returns the frame without columns, the analysis is
    entered and raises [KeyError] for ['stars'], and nothing is printed. *)
Theorem main_empty_items (w : World) (r : Response) (data : json) :
  requests_get w url headers = Ok r ->
  status_code r = 200 ->
  content r = Some data ->
  getitem data "items" = Ok (JList []) ->
  fst (main w) = Raise (KeyError "stars")
  /\ trace (snd (main w)) = trace w ++ prologue.
Proof.
  intros Hget Hstatus Hbody Hitems.
  assert (Hf : fst (fetch_github_data w) = Ok data).
  { unfold fetch_github_data, bindIO, emit. simpl.
    rewrite Hget, Hstatus. simpl. unfold Response_json. rewrite Hbody. reflexivity. }
  assert (Hp : process_data data = Ok (pd_DataFrame []))
    by (unfold process_data; rewrite Hitems; reflexivity).
  rewrite (main_analysis_raises w data _ (KeyError "stars") Hf Hp eq_refl).
  split; reflexivity.
Qed.

Lemma main_empty_items_witness :
  getitem (search_result []) "items" = Ok (JList [])
  /\ fst (main (world (response_ok (search_result [])))) = Raise (KeyError "stars")
  /\ trace (snd (main (world (response_ok (search_result []))))) = [] ++ prologue.
Proof.
  split; [reflexivity |].
  exact (main_empty_items (world (response_ok (search_result [])))
           (response_ok (search_result [])) (search_result [])
           eq_refl eq_refl eq_refl eq_refl).
Defined.

(** ** The rows that the analysis and the charts take *)
















(** ** What the analysis reads, and what it keeps *)

Lemma getcol_take_eq (pos : list nat) (df df' : DataFrame) (c : string) :
  getcol df c = getcol df' c -> getcol (take pos df) c = getcol (take pos df') c.
Proof.
  unfold getcol, take; cbn [columns]. rewrite !(lookup_map_snd (Series_take pos)).
  destruct (lookup c (columns df)), (lookup c (columns df')); cbn [option_map];
    intro H; inversion H; reflexivity.
Qed.

Lemma getcols_eq (a b : DataFrame) (cs : list string) :
  index a = index b ->
  (forall c, In c cs -> getcol a c = getcol b c) ->
  getcols a cs = getcols b cs.
Proof.
  intros Hidx H. unfold getcols. rewrite Hidx.
  replace (for_each (fun c => s <- getcol a c ;; Ok (c, s)) cs)
    with (for_each (fun c => s <- getcol b c ;; Ok (c, s)) cs); [reflexivity |].
  induction cs as [| c cs IH]; [reflexivity |].
  cbn [for_each]. rewrite (H c (or_introl eq_refl)), IH; [reflexivity |].
  intros c' Hc'. apply H. right. exact Hc'.
Qed.

Lemma bind_top {B} (k : nat) (c : string) (cs : list string) (df df' : DataFrame)
    (f f' : DataFrame -> result B) :
  index df = index df' ->
  getcol df c = getcol df' c ->
  (forall c', In c' cs -> getcol df c' = getcol df' c') ->
  (forall v, f v = f' v) ->
  (t <- nlargest k c df ;; v <- getcols t cs ;; f v)
  = (t <- nlargest k c df' ;; v <- getcols t cs ;; f' v).
Proof.
  intros Hidx Hc Hcs Hf. unfold nlargest. rewrite <- Hc.
  destruct (getcol df c) as [[v | v] | e |]; cbn [bind]; try reflexivity.
  rewrite (getcols_eq (take (Series_nlargest k v) df) (take (Series_nlargest k v) df') cs).
  - destruct (getcols _ cs); cbn [bind]; [apply Hf | reflexivity | reflexivity].
  - unfold take; cbn [index]. rewrite Hidx. reflexivity.
  - intros c' Hc'. apply getcol_take_eq, Hcs, Hc'.
Qed.

(** X17.  The analysis reads the labels of the frame and five of its
    columns, [stars], [forks], [created_at], [name] and [owner]: two frames
    that agree on these give the same summary, or the same exception,
    whatever their other columns ([issues], [description]) hold and in
    whatever order the columns come. *)
Theorem analyze_data_reads_columns (y : Z) (df df' : DataFrame) :
  index df = index df' ->
  (forall c, In c analysis_columns -> getcol df c = getcol df' c) ->
  analyze_data y df = analyze_data y df'.
Proof.
  intros Hidx H.
  assert (Hst : getcol df "stars" = getcol df' "stars") by (apply H; simpl; tauto).
  assert (Hfk : getcol df "forks" = getcol df' "forks") by (apply H; simpl; tauto).
  assert (Hcr : getcol df "created_at" = getcol df' "created_at") by (apply H; simpl; tauto).
  assert (Hnm : getcol df "name" = getcol df' "name") by (apply H; simpl; tauto).
  assert (How : getcol df "owner" = getcol df' "owner") by (apply H; simpl; tauto).
  unfold analyze_data, len. rewrite <- Hidx, <- Hst, <- Hcr.
  destruct (getcol df "stars") as [[st | st] | e |] eqn:E;
    cbn [bind Series_sum Series_mean]; try reflexivity.
  rewrite <- E in Hst.
  apply bind_top; [exact Hidx | exact Hst | |].
  { intros c [<- | [<- | [<- | []]]]; assumption. }
  intro v.
  apply bind_top; [exact Hidx | exact Hfk | |].
  { intros c [<- | [<- | [<- | []]]]; assumption. }
  intro v'. reflexivity.
Qed.

Lemma analyze_data_reads_columns_witness :
  index table3 = index table3_bare
  /\ (forall c, In c analysis_columns -> getcol table3 c = getcol table3_bare c)
  /\ analyze_data 2026 table3 = analyze_data 2026 table3_bare.
Proof.
  assert (H : forall c, In c analysis_columns -> getcol table3 c = getcol table3_bare c).
  { intros c [<- | [<- | [<- | [<- | [<- | []]]]]]; reflexivity. }
  split; [reflexivity |]. split; [exact H |].
  exact (analyze_data_reads_columns 2026 table3 table3_bare eq_refl H).
Defined.

Lemma Series_iloc_take (pos : list nat) (s : Series) (i p : nat) :
  nth_error pos i = Some p -> (p < Series_len s)%nat ->
  Series_iloc (Series_take pos s) i = Series_iloc s p.
Proof.
  intros Hi Hp. destruct s as [v | v]; cbn [Series_take Series_iloc Series_len] in *.
  - rewrite nth_error_map, Hi. cbn [option_map].
    rewrite (nth_error_nth' v 0 Hp). reflexivity.
  - rewrite nth_error_map, Hi. cbn [option_map].
    rewrite (nth_error_nth' v JNull Hp). reflexivity.
Qed.

Lemma top_frame_rows (k : nat) (c : string) (v : list Z) (nm ow : Series) (df : DataFrame) :
  index df = seq 0 (len df) -> length v = len df ->
  Series_len nm = len df -> Series_len ow = len df ->
  rows_of c nm (Int64 v) ow (top_frame k c v nm ow df).
Proof.
  intros Hidx Hv Hnm How.
  pose proof (top_frame_index k c v nm ow df Hidx Hv) as Hi.
  unfold rows_of. rewrite Hi. unfold top_frame; cbn [columns].
  do 3 eexists. split; [reflexivity |].
  intros i p Hp.
  assert (Hlt : (p < len df)%nat).
  { rewrite <- Hv. apply (Series_nlargest_bound k v p). exact (nth_error_In _ _ Hp). }
  split; [apply Series_iloc_take; [exact Hp | lia] |].
  split; [| apply Series_iloc_take; [exact Hp | lia]].
  change (Int64 (map (fun p => nth p v 0) (Series_nlargest k v)))
    with (Series_take (Series_nlargest k v) (Int64 v)).
  apply Series_iloc_take; [exact Hp | cbn [Series_len]; lia].
Qed.

(** X19.  The rows of [most_starred] and of [most_forked] are rows of the
    table: the frames have the columns [name], the ranked column and
    [owner], in this order, and the row with label [p] holds the name, the
    count and the owner that the table has at position [p]; no cell moves
    to another repository. *)
Theorem top5_rows_intact (y : Z) (df : DataFrame) (st fk cr : list Z) (nm ow : Series) :
  RepositoryTable df st fk cr ->
  getcol df "name" = Ok nm ->
  getcol df "owner" = Ok ow ->
  exists s,
    analyze_data y df = Ok s
    /\ rows_of "stars" nm (Int64 st) ow (most_starred s)
    /\ rows_of "forks" nm (Int64 fk) ow (most_forked s).
Proof.
  intros T Hnm How.
  pose proof (table_column_length _ _ _ _ _ _ T (table_stars _ _ _ _ T)) as Hst.
  pose proof (table_column_length _ _ _ _ _ _ T (table_forks _ _ _ _ T)) as Hfk.
  pose proof (table_column_length _ _ _ _ _ _ T Hnm) as Hn.
  pose proof (table_column_length _ _ _ _ _ _ T How) as Ho.
  cbn [Series_len] in Hst, Hfk.
  eexists.
  split; [exact (analyze_data_columns y df st fk cr nm ow (table_stars _ _ _ _ T)
                   (table_forks _ _ _ _ T) (table_created_at _ _ _ _ T) Hnm How) |].
  cbn [most_starred most_forked].
  split; apply top_frame_rows; try assumption; apply (table_index _ _ _ _ T).
Qed.

Lemma top5_rows_intact_witness :
  RepositoryTable table3 [100; 50; 200] [10; 5; 1] [2020; 2021; 2019]
  /\ exists s,
       analyze_data 2026 table3 = Ok s
       /\ rows_of "stars" (Object [JStr "a"; JStr "b"; JStr "c"]) (Int64 [100; 50; 200])
            (Object [JStr "x"; JStr "y"; JStr "z"]) (most_starred s)
       /\ rows_of "forks" (Object [JStr "a"; JStr "b"; JStr "c"]) (Int64 [10; 5; 1])
            (Object [JStr "x"; JStr "y"; JStr "z"]) (most_forked s).
Proof.
  split; [exact table3_table |].
  exact (top5_rows_intact 2026 table3 _ _ _ _ _ table3_table eq_refl eq_refl).
Defined.

Lemma Series_nlargest_all (n : nat) (v : list Z) :
  (length v <= n)%nat -> Permutation (Series_nlargest n v) (seq 0 (length v)).
Proof.
  intro H. unfold Series_nlargest.
  rewrite firstn_all2 by (rewrite length_ranking; exact H).
  rewrite <- map_fst_rows. apply Permutation_map, Permutation_sym, sort_desc_perm.
Qed.

(** X20.  From a table of at most five rows nothing is left out:
    [most_starred] and [most_forked] each hold every row of the table once,
    reordered. *)
Theorem top5_of_small_table (y : Z) (df : DataFrame) (st fk cr : list Z) :
  RepositoryTable df st fk cr ->
  (len df <= 5)%nat ->
  exists s,
    analyze_data y df = Ok s
    /\ Permutation (index (most_starred s)) (index df)
    /\ Permutation (index (most_forked s)) (index df).
Proof.
  intros T Hle.
  destruct (analyze_data_table y df st fk cr T) as (nm & ow & Hs).
  pose proof (table_column_length _ _ _ _ _ _ T (table_stars _ _ _ _ T)) as Hst.
  pose proof (table_column_length _ _ _ _ _ _ T (table_forks _ _ _ _ T)) as Hfk.
  cbn [Series_len] in Hst, Hfk.
  eexists. split; [exact Hs |]. cbn [most_starred most_forked].
  rewrite !(top_frame_index _ _ _ _ _ _ (table_index _ _ _ _ T)) by assumption.
  rewrite (table_index _ _ _ _ T).
  split; [rewrite <- Hst | rewrite <- Hfk]; apply Series_nlargest_all; lia.
Qed.

Lemma top5_of_small_table_witness :
  RepositoryTable table3 [100; 50; 200] [10; 5; 1] [2020; 2021; 2019]
  /\ (len table3 <= 5)%nat
  /\ exists s,
       analyze_data 2026 table3 = Ok s
       /\ Permutation (index (most_starred s)) (index table3)
       /\ Permutation (index (most_forked s)) (index table3).
Proof.
  assert (Hle : (len table3 <= 5)%nat) by (cbn; lia).
  split; [exact table3_table |]. split; [exact Hle |].
  exact (top5_of_small_table 2026 table3 _ _ _ table3_table Hle).
Defined.

(** ** The average age *)

Lemma maps_to_year_range (repo : json) (r : repository) :
  maps_to repo r -> 1 <= created_at r <= 9999.
Proof.
  intros (_ & _ & _ & _ & Hc & _). unfold created_year in Hc.
  destruct (getitem repo "created_at") as [c | |]; simpl in Hc; try discriminate.
  exact (strptime_year_range _ _ Hc).
Qed.

Lemma years_sum_bound (repos : list json) (rs : list repository) :
  Forall2 maps_to repos rs ->
  Forall (fun z => 0 <= z) (map created_at rs)
  /\ exact_sum (map created_at rs) <= 9999 * Z.of_nat (length rs).
Proof.
  induction 1 as [| repo r repos rs Hm _ [IH1 IH2]].
  - split; [constructor | simpl; lia].
  - pose proof (maps_to_year_range _ _ Hm) as Hy.
    split; [constructor; [lia | exact IH1] |].
    cbn [map exact_sum fold_right length]. fold (exact_sum (map created_at rs)). lia.
Qed.

(** The mean of a column of non-negative integers whose sum is below
    [2^53]: the quotient of the exact sum by the number of cells; of no cell,
    NaN as the quotient of zero by zero. *)
Lemma mean_int64_exact (v : list Z) :
  Forall (fun z => 0 <= z) v ->
  exact_sum v < 2 ^ 53 ->
  mean_int64 v
  = PrimFloat.div (float_of_int64 (exact_sum v)) (float_of_int64 (Z.of_nat (length v))).
Proof.
  intros Hnn Hlt.
  destruct v as [| z v']; [reflexivity |].
  pose proof (exact_sum_nonneg _ Hnn) as Hpos.
  unfold mean_int64. f_equal.
  rewrite (float_of_int64_ofZ _ Hpos), zero_ofZ.
  rewrite float_sum_exact by (assumption || lia).
  reflexivity.
Qed.

(** X18.  For valid records (fewer than [2^39] of them) the years of
    creation are added without rounding: [average_age] is the year of the
    clock minus the double-precision quotient of the exact sum of the years
    by the number of records. *)
Theorem average_age_exact (y : Z) (data : json) (repos : list json)
    (rs : list repository) :
  repos <> [] ->
  Z.of_nat (length repos) < 2 ^ 39 ->
  getitem data "items" = Ok (JList repos) ->
  Forall2 valid_record repos rs ->
  exists df s,
    process_data data = Ok df
    /\ analyze_data y df = Ok s
    /\ average_age s
       = PrimFloat.sub (float_of_int64 y)
           (PrimFloat.div (float_of_int64 (exact_sum (map created_at rs)))
              (float_of_int64 (Z.of_nat (length repos)))).
Proof.
  intros Hne Hsmall Hitems Hvalid.
  destruct (valid_records_split _ _ Hvalid) as (Hall & Ht & Hy).
  pose proof (Forall2_length Hall) as Hlen.
  assert (Hrs : rs <> []) by (intros ->; destruct repos; [congruence | discriminate Hlen]).
  pose proof (pd_DataFrame_table rs Hrs Ht Hy) as T.
  destruct (analyze_data_table y _ _ _ _ T) as (nm & ow & Hs).
  destruct (years_sum_bound _ _ Hall) as [Hnn Hsum].
  exists (pd_DataFrame rs). eexists.
  split; [exact (process_data_items _ _ _ Hitems Hall) |].
  split; [exact Hs |]. cbn [average_age]. f_equal.
  rewrite Hlen, <- (length_map created_at rs).
  apply mean_int64_exact; [exact Hnn |].
  rewrite <- Hlen in Hsum.
  apply Z.le_lt_trans with (1 := Hsum).
  change (2 ^ 53) with (2 ^ 14 * 2 ^ 39). nia.
Qed.

Lemma average_age_exact_witness :
  [repo_a; repo_b; repo_c] <> []
  /\ Z.of_nat (length [repo_a; repo_b; repo_c]) < 2 ^ 39
  /\ Forall2 valid_record [repo_a; repo_b; repo_c] records3
  /\ exists df s,
       process_data raw3 = Ok df
       /\ analyze_data 2026 df = Ok s
       /\ average_age s
          = PrimFloat.sub (float_of_int64 2026)
              (PrimFloat.div (float_of_int64 (exact_sum (map created_at records3)))
                 (float_of_int64 (Z.of_nat (length [repo_a; repo_b; repo_c])))).
Proof.
  assert (Hne : [repo_a; repo_b; repo_c] <> []) by discriminate.
  assert (Hsmall : Z.of_nat (length [repo_a; repo_b; repo_c]) < 2 ^ 39) by reflexivity.
  split; [exact Hne |]. split; [exact Hsmall |]. split; [exact records3_valid |].
  exact (average_age_exact 2026 raw3 _ _ Hne Hsmall eq_refl records3_valid).
Defined.
